(** * FlowSync analytics: dashboard statistics and sales-by-period buckets

    A shallow embedding of the reporting code of the FlowSync CRM:

    - [client/src/components/reports/sales-by-period.tsx], function
      [getSalesByPeriod] (the period bucketizer);
    - [server/storage.ts], methods [getDealsByStage] and
      [getDashboardStats] (the metric aggregator).

    Modelling conventions.

    - A JavaScript [Date] is its time value, an integer number of
      milliseconds, read on the local time line.  The local zone is taken
      to have a constant offset (no daylight-saving jumps), so the local
      getters and setters are the ECMAScript day/month/year functions
      applied to the time value itself.  Time values are assumed to stay
      inside the range in which a [Date] is valid.
    - A JavaScript number is an exact rational, or one of the three
      non-finite values; rounding of IEEE doubles is not modelled.
      Results that depend on how a quotient is rounded are therefore
      stated through the operations of the code, or as bounds, and the
      distance between period bounds is stated in calendar days, which
      does not depend on the length of a day.
    - The relational store is a snapshot: four lists of rows.
    - The system clock is a sequence of readings; [new Date()] consumes
      the next one. *)

From Stdlib Require Import ZArith List Bool Lia String Ascii QArith Qround Qabs.
From Stdlib Require Import DecimalString Sorted Permutation Lqa.
Import ListNotations.
Open Scope Z_scope.

(** ** ECMAScript date arithmetic *)

Module JSDate.

Definition msPerDay : Z := 86400000.

Definition Day (t : Z) : Z := t / msPerDay.

Definition TimeWithinDay (t : Z) : Z := t mod msPerDay.

Definition DaysInYear (y : Z) : Z :=
  if negb (y mod 4 =? 0) then 365
  else if negb (y mod 100 =? 0) then 366
  else if negb (y mod 400 =? 0) then 365
  else 366.

Definition DayFromYear (y : Z) : Z :=
  365 * (y - 1970) + (y - 1969) / 4 - (y - 1901) / 100 + (y - 1601) / 400.

(** The largest [y] with [DayFromYear y <= d]: a closed-form estimate,
    corrected by at most one year ([YearFromDay_spec] below). *)
Definition YearFromDay (d : Z) : Z :=
  let y := 1970 + (400 * d) / 146097 in
  if d <? DayFromYear y then y - 1
  else if DayFromYear (y + 1) <=? d then y + 1
  else y.

Definition YearFromTime (t : Z) : Z := YearFromDay (Day t).

Definition InLeapYear (y : Z) : Z := if DaysInYear y =? 366 then 1 else 0.

Definition DayWithinYear (t : Z) : Z := Day t - DayFromYear (YearFromTime t).

(** Month number (0 = January) from the day within the year [d] and the
    leap-year flag [l]. *)
Definition MonthFromDayInYear (d l : Z) : Z :=
  if d <? 31 then 0
  else if d <? 59 + l then 1
  else if d <? 90 + l then 2
  else if d <? 120 + l then 3
  else if d <? 151 + l then 4
  else if d <? 181 + l then 5
  else if d <? 212 + l then 6
  else if d <? 243 + l then 7
  else if d <? 273 + l then 8
  else if d <? 304 + l then 9
  else if d <? 334 + l then 10
  else 11.

(** Day within the year of the first day of month [m]. *)
Definition DayFromMonth (m l : Z) : Z :=
  if m =? 0 then 0
  else if m =? 1 then 31
  else if m =? 2 then 59 + l
  else if m =? 3 then 90 + l
  else if m =? 4 then 120 + l
  else if m =? 5 then 151 + l
  else if m =? 6 then 181 + l
  else if m =? 7 then 212 + l
  else if m =? 8 then 243 + l
  else if m =? 9 then 273 + l
  else if m =? 10 then 304 + l
  else 334 + l.

Definition MonthFromTime (t : Z) : Z :=
  MonthFromDayInYear (DayWithinYear t) (InLeapYear (YearFromTime t)).

Definition DateFromTime (t : Z) : Z :=
  let l := InLeapYear (YearFromTime t) in
  DayWithinYear t - DayFromMonth (MonthFromTime t) l + 1.

(** [MakeDay year month date]: months outside 0..11 carry into the year,
    dates outside the month carry into the neighbouring months. *)
Definition MakeDay (year month date : Z) : Z :=
  let ym := year + month / 12 in
  let mn := month mod 12 in
  DayFromYear ym + DayFromMonth mn (InLeapYear ym) + date - 1.

Definition MakeTime (hour min sec ms : Z) : Z :=
  hour * 3600000 + min * 60000 + sec * 1000 + ms.

Definition MakeDate (day time : Z) : Z := day * msPerDay + time.

(** *** The [Date] methods used by the source *)

Definition getFullYear (t : Z) : Z := YearFromTime t.
Definition getMonth (t : Z) : Z := MonthFromTime t.
Definition getDate (t : Z) : Z := DateFromTime t.

(** The constructor maps a two-digit year to 1900 + year. *)
Definition fullYearOf (y : Z) : Z :=
  if (0 <=? y) && (y <=? 99) then 1900 + y else y.

(** [new Date(year, month, date, hours, minutes, seconds, ms)] *)
Definition newDate7 (year month date h mi s ms : Z) : Z :=
  MakeDate (MakeDay (fullYearOf year) month date) (MakeTime h mi s ms).

(** [new Date(year, month, date)] *)
Definition newDate3 (year month date : Z) : Z :=
  newDate7 year month date 0 0 0 0.

(** [d.setDate(date)] *)
Definition setDate (t date : Z) : Z :=
  MakeDate (MakeDay (YearFromTime t) (MonthFromTime t) date) (TimeWithinDay t).

(** [d.setMonth(month)] *)
Definition setMonth (t month : Z) : Z :=
  MakeDate (MakeDay (YearFromTime t) month (DateFromTime t)) (TimeWithinDay t).

(** [d.setHours(0, 0, 0, 0)] *)
Definition setHours0 (t : Z) : Z := MakeDate (Day t) (MakeTime 0 0 0 0).

(** [d.toLocaleString('default', { month: 'short' })], in an English
    locale. *)
Definition shortMonthName (m : Z) : string :=
  nth (Z.to_nat m)
      ["Jan"; "Feb"; "Mar"; "Apr"; "May"; "Jun";
       "Jul"; "Aug"; "Sep"; "Oct"; "Nov"; "Dec"]%string ""%string.

Definition toLocaleMonthShort (t : Z) : string := shortMonthName (getMonth t).

(** Decimal rendering of an integer, as [Number.prototype.toString]. *)
Definition toString (z : Z) : string := NilZero.string_of_int (Z.to_int z).

End JSDate.

(** ** Rows of the relational schema ([shared/schema.ts]) *)

Module Schema.

(** Timestamps are time values; a nullable column is an [option]. *)
Record Customer := { customer_createdAt : option Z }.

Record Deal := {
  deal_stage : string;
  deal_value : option Q;
  deal_createdAt : option Z
}.

Record Task := {
  task_dueDate : option Z;
  task_status : option string
}.

Record Meeting := {
  meeting_startTime : option Z;
  meeting_status : option string;
  meeting_createdAt : option Z
}.

End Schema.

(** ** How a call completes *)

Inductive completion (A : Type) : Type :=
| Normal (v : A)
| Throw (e : string).

Arguments Normal {A} v.
Arguments Throw {A} e.

(** ** The period bucketizer ([sales-by-period.tsx]) *)

Module SalesByPeriod.

Import JSDate Schema.

Record PeriodData := {
  name : string;
  startDate : Z;
  endDate : Z;
  value : Q;
  count : Z
}.

(** One element of the array handed to the chart. *)
Record SalesRow := {
  row_name : string;
  row_value : Q;
  row_count : Z
}.

(** [for (let i = n; i >= 0; i--) periods.push(body i)] *)
Fixpoint forDown (n : nat) (body : Z -> PeriodData) : list PeriodData :=
  match n with
  | O => [body 0]
  | S k => body (Z.of_nat n) :: forDown k body
  end.

Definition weeklyPeriod (now i : Z) : PeriodData :=
  let start := setDate now (getDate now - (i * 7 + 7)) in
  let end_ := setDate now (getDate now - i * 7) in
  {| name := "Week " ++ toString (8 - i);
     startDate := start; endDate := end_; value := 0; count := 0 |}.

Definition monthlyPeriod (now i : Z) : PeriodData :=
  let month := setMonth now (getMonth now - i) in
  let monthName := toLocaleMonthShort month in
  {| name := monthName;
     startDate := newDate3 (getFullYear month) (getMonth month) 1;
     endDate := newDate3 (getFullYear month) (getMonth month + 1) 0;
     value := 0; count := 0 |}.

Definition quarterlyPeriod (now i : Z) : PeriodData :=
  let quarter := (getMonth now - i * 3) / 3 + 1 in
  let year := getFullYear now - (if quarter <? 1 then 1 else 0) in
  let adjustedQuarter := if quarter <? 1 then quarter + 4 else quarter in
  {| name := "Q" ++ toString adjustedQuarter ++ " " ++ toString year;
     startDate := newDate3 year ((adjustedQuarter - 1) * 3) 1;
     endDate := newDate3 year (adjustedQuarter * 3) 0;
     value := 0; count := 0 |}.

Definition yearlyPeriod (now i : Z) : PeriodData :=
  let year := getFullYear now - i in
  {| name := toString year;
     startDate := newDate3 year 0 1;
     endDate := newDate3 year 11 31;
     value := 0; count := 0 |}.

(** The [if / else if] chain on [period]; a string matching none of the
    four branches leaves [periods] empty. *)
Definition generatePeriods (period : string) (now : Z) : list PeriodData :=
  if String.eqb period "weekly" then forDown 7 (weeklyPeriod now)
  else if String.eqb period "monthly" then forDown 5 (monthlyPeriod now)
  else if String.eqb period "quarterly" then forDown 3 (quarterlyPeriod now)
  else if String.eqb period "yearly" then forDown 4 (yearlyPeriod now)
  else [].

(** [dealDate >= p.startDate && dealDate <= p.endDate] *)
Definition inPeriod (dealDate : Z) (p : PeriodData) : bool :=
  (startDate p <=? dealDate) && (dealDate <=? endDate p).

(** [Number(deal.value || 0)] *)
Definition dealValue (d : Deal) : Q :=
  match deal_value d with Some v => v | None => 0%Q end.

(** Body of the inner [periods.forEach]. *)
Definition addToPeriod (dealDate : Z) (v : Q) (p : PeriodData) : PeriodData :=
  if inPeriod dealDate p
  then {| name := name p; startDate := startDate p; endDate := endDate p;
          value := (value p + v)%Q; count := count p + 1 |}
  else p.

(** Body of the outer [deals.forEach]. *)
Definition addDeal (periods : list PeriodData) (d : Deal) : list PeriodData :=
  match deal_createdAt d with
  | None => periods
  | Some dealDate => map (addToPeriod dealDate (dealValue d)) periods
  end.

Definition aggregate (periods : list PeriodData) (deals : list Deal)
  : list PeriodData :=
  fold_left addDeal deals periods.

(** [Math.round(x * 100) / 100] *)
Definition roundCents (x : Q) : Q :=
  Qred (inject_Z (Qfloor (x * 100 + (1 # 2))%Q) / 100)%Q.

Definition display (p : PeriodData) : SalesRow :=
  {| row_name := name p; row_value := roundCents (value p);
     row_count := count p |}.

(** [deals] is [None] while the query has no data yet; [now] is the one
    reading [new Date()] takes of the clock.  No path of the function
    has a [throw]. *)
Definition getSalesByPeriod (deals : option (list Deal)) (period : string)
    (now : Z) : completion (list SalesRow) :=
  match deals with
  | None => Normal []
  | Some [] => Normal []
  | Some ds => Normal (map display (aggregate (generatePeriods period now) ds))
  end.

End SalesByPeriod.

(** ** JavaScript numbers *)

Module JSNumber.

Local Open Scope Q_scope.

Inductive number : Type :=
| Num (q : Q)
| PosInf
| NegInf
| NaN.

Definition ofInt (n : Z) : number := Num (inject_Z n).

Definition neg (x : number) : number :=
  match x with
  | Num q => Num (Qred (- q))
  | PosInf => NegInf
  | NegInf => PosInf
  | NaN => NaN
  end.

Definition isNegative (q : Q) : bool := (Qnum q <? 0)%Z.

(** [x - y] *)
Definition sub (x y : number) : number :=
  match x, y with
  | Num a, Num b => Num (Qred (a - b))
  | NaN, _ | _, NaN => NaN
  | PosInf, PosInf | NegInf, NegInf => NaN
  | PosInf, _ | _, NegInf => PosInf
  | NegInf, _ | _, PosInf => NegInf
  end.

(** [x * y] *)
Definition mul (x y : number) : number :=
  match x, y with
  | Num a, Num b => Num (Qred (a * b))
  | NaN, _ | _, NaN => NaN
  | Num a, inf | inf, Num a =>
      if Qeq_bool a 0 then NaN else if isNegative a then neg inf else inf
  | PosInf, PosInf | NegInf, NegInf => PosInf
  | PosInf, NegInf | NegInf, PosInf => NegInf
  end.

(** [x / y]: a zero divisor yields a non-finite value, not an exception. *)
Definition div (x y : number) : number :=
  match x, y with
  | Num a, Num b =>
      if Qeq_bool b 0 then
        if Qeq_bool a 0 then NaN
        else if isNegative a then NegInf else PosInf
      else Num (Qred (a / b))
  | NaN, _ | _, NaN => NaN
  | Num _, _ => Num 0
  | inf, Num b => if isNegative b then neg inf else inf
  | _, _ => NaN
  end.

(** [x || 0] on a number: zero and [NaN] are falsy. *)
Definition orZero (x : number) : number :=
  match x with
  | Num q => if Qeq_bool q 0 then Num 0 else x
  | NaN => Num 0
  | _ => x
  end.

(** [n || 0] on an integer-valued number. *)
Definition orZeroInt (n : Z) : Z := if (n =? 0)%Z then 0%Z else n.

(** [parseFloat(x.toFixed(digits))]: the nearest multiple of
    [10^-digits], ties away from zero. *)
Definition toFixed (digits : Z) (x : number) : number :=
  match x with
  | Num q =>
      let scale := inject_Z (10 ^ digits)%Z in
      let n := Qfloor (Qabs q * scale + (1 # 2)) in
      let r := inject_Z n / scale in
      Num (Qred (if isNegative q then - r else r))
  | _ => x
  end.

End JSNumber.

(** ** The system clock *)

Module Clock.

(** [readings k] is what the [k]-th evaluation of [new Date()] returns;
    the state is the number of readings taken so far. *)
Definition readings := nat -> Z.

Definition M (A : Type) : Type := readings -> nat -> A * nat.

Definition ret {A} (a : A) : M A := fun _ n => (a, n).

Definition bind {A B} (c : M A) (k : A -> M B) : M B :=
  fun clk n => let (a, n') := c clk n in k a clk n'.

(** [new Date()] *)
Definition newDate : M Z := fun clk n => (clk n, S n).

Definition run {A} (c : M A) (clk : readings) : A * nat := c clk O.

End Clock.

Notation "x <- c ;; k" := (Clock.bind c (fun x => k))
  (at level 61, c at next level, right associativity).

(** ** The metric aggregator ([server/storage.ts]) *)

Module Storage.

Import JSDate JSNumber Schema Clock.

(** A snapshot of the tables the aggregates read. *)
Record Store := {
  customers : list Customer;
  deals : list Deal;
  tasks : list Task;
  meetings : list Meeting
}.

(** *** SQL predicates: three-valued, [None] is NULL *)

Definition sqlGte (col : option Z) (v : Z) : option bool :=
  option_map (fun c => v <=? c) col.

Definition sqlLte (col : option Z) (v : Z) : option bool :=
  option_map (fun c => c <=? v) col.

Definition sqlLt (col : option Z) (v : Z) : option bool :=
  option_map (fun c => c <? v) col.

Definition sqlEq (col : option string) (v : string) : option bool :=
  option_map (fun c => String.eqb c v) col.

Definition sqlNot (a : option bool) : option bool := option_map negb a.

Definition sqlAnd (a b : option bool) : option bool :=
  match a, b with
  | Some false, _ | _, Some false => Some false
  | Some true, Some true => Some true
  | _, _ => None
  end.

Definition sqlOr (a b : option bool) : option bool :=
  match a, b with
  | Some true, _ | _, Some true => Some true
  | Some false, Some false => Some false
  | _, _ => None
  end.

(** A [where] clause keeps the rows on which the condition is true. *)
Definition holds (c : option bool) : bool :=
  match c with Some true => true | _ => false end.

(** [select count( * )::int from rows where cond] *)
Definition countWhere {A} (cond : A -> option bool) (rows : list A) : Z :=
  Z.of_nat (List.length (filter (fun r => holds (cond r)) rows)).

Definition countAll {A} (rows : list A) : Z := Z.of_nat (List.length rows).

(** SQL [sum]: NULL inputs are skipped, and the sum of no input is NULL. *)
Definition sqlAdd (acc : option Q) (v : option Q) : option Q :=
  match acc, v with
  | Some a, Some b => Some (a + b)%Q
  | None, x | x, None => x
  end.

Definition sqlSum (vs : list (option Q)) : option Q :=
  fold_left sqlAdd vs None.

(** [COALESCE(x, 0)] *)
Definition coalesce0 (x : option Q) : Q :=
  match x with Some q => q | None => 0%Q end.

(** *** [getDealsByStage] *)

(** One row of [select stage, count(id), sum(value) ... group by stage]. *)
Record StageGroup := {
  group_stage : string;
  group_count : Z;
  group_sum : option Q
}.

Fixpoint addToGroups (d : Deal) (gs : list StageGroup) : list StageGroup :=
  match gs with
  | [] => [{| group_stage := deal_stage d; group_count := 1;
              group_sum := deal_value d |}]
  | g :: rest =>
      if String.eqb (group_stage g) (deal_stage d)
      then {| group_stage := group_stage g;
              group_count := group_count g + 1;
              group_sum := sqlAdd (group_sum g) (deal_value d) |} :: rest
      else g :: addToGroups d rest
  end.

Definition groupByStage (ds : list Deal) : list StageGroup :=
  fold_left (fun gs d => addToGroups d gs) ds [].

Record StageRow := {
  stage : string;
  count : Z;
  totalValue : number
}.

Definition getDealsByStage (db : Store) : list StageRow :=
  let result := groupByStage (deals db) in
  map (fun row =>
         {| stage := group_stage row;
            count := orZeroInt (group_count row);
            totalValue := orZero (Num (coalesce0 (group_sum row))) |})
      result.

(** *** [getDashboardStats] *)

Record DashboardStats := {
  customerCount : Z;
  customerGrowth : number;
  activeDeals : Z;
  dealChange : number;
  upcomingMeetings : Z;
  meetingChange : number;
  tasksDueToday : Z;
  totalTasks : Z;
  taskCompletion : number;
  totalSales : number;
  avgDealSize : number;
  winRate : number;
  customerRetentionRate : number
}.

(** [d === 0 ? 0 : (n / d) * 100] *)
Definition percentOf (n : number) (d : Z) : number :=
  if d =? 0 then Num 0 else mul (div n (ofInt d)) (ofInt 100).

(** [previous === 0 ? 0 : ((current - previous) / previous) * 100] *)
Definition monthOverMonth (current previous : Z) : number :=
  if previous =? 0 then Num 0
  else mul (div (sub (ofInt current) (ofInt previous)) (ofInt previous))
           (ofInt 100).

Definition firstDayCurrentMonthOf (now : Z) : Z :=
  newDate3 (getFullYear now) (getMonth now) 1.

Definition firstDayPreviousMonthOf (now : Z) : Z :=
  newDate3 (getFullYear now) (getMonth now - 1) 1.

Definition lastDayPreviousMonthOf (now : Z) : Z :=
  newDate3 (getFullYear now) (getMonth now) 0.

Definition activeStage (d : Deal) : option bool :=
  let s := Some (deal_stage d) in
  sqlOr (sqlOr (sqlOr (sqlEq s "lead") (sqlEq s "qualification"))
               (sqlEq s "proposal"))
        (sqlEq s "negotiation").

Definition dueOpenTask (todayDate tomorrowDate : Z) (t : Task) : option bool :=
  sqlAnd (sqlAnd (sqlAnd (sqlGte (task_dueDate t) todayDate)
                         (sqlLt (task_dueDate t) tomorrowDate))
                 (sqlNot (sqlEq (task_status t) "completed")))
         (sqlNot (sqlEq (task_status t) "cancelled")).

Definition getDashboardStats (db : Store) : M DashboardStats :=
  let customerCountResult := countAll (customers db) in
  let totalSalesResult := coalesce0 (sqlSum (map deal_value (deals db))) in
  let totalSales := orZero (Num totalSalesResult) in
  let totalDealsResult := countAll (deals db) in
  let totalDeals := orZeroInt totalDealsResult in
  let avgDealSize :=
    if totalDeals =? 0 then Num 0 else div totalSales (ofInt totalDeals) in
  let wonDealsResult :=
    countWhere (fun d => sqlEq (Some (deal_stage d)) "closed_won") (deals db) in
  let wonDeals := orZeroInt wonDealsResult in
  let winRate := percentOf (ofInt wonDeals) totalDeals in
  now <- newDate ;;
  let firstDayCurrentMonth := firstDayCurrentMonthOf now in
  let firstDayPreviousMonth := firstDayPreviousMonthOf now in
  let lastDayPreviousMonth := lastDayPreviousMonthOf now in
  let currentMonthCustomers :=
    countWhere (fun c => sqlGte (customer_createdAt c) firstDayCurrentMonth)
               (customers db) in
  let previousMonthCustomers :=
    countWhere (fun c =>
                  sqlAnd (sqlGte (customer_createdAt c) firstDayPreviousMonth)
                         (sqlLte (customer_createdAt c) lastDayPreviousMonth))
               (customers db) in
  let currentCount := orZeroInt currentMonthCustomers in
  let previousCount := orZeroInt previousMonthCustomers in
  let customerGrowth := monthOverMonth currentCount previousCount in
  let endCustomers := orZeroInt customerCountResult in
  let newCustomers := currentCount in
  let startingCustomers := endCustomers - newCustomers in
  let customerRetentionRate :=
    if startingCustomers =? 0 then Num 0
    else mul (div (sub (ofInt endCustomers) (ofInt newCustomers))
                  (ofInt startingCustomers))
             (ofInt 100) in
  let activeDealsResult := countWhere activeStage (deals db) in
  let currentMonthDeals :=
    countWhere (fun d => sqlGte (deal_createdAt d) firstDayCurrentMonth)
               (deals db) in
  let previousMonthDeals :=
    countWhere (fun d =>
                  sqlAnd (sqlGte (deal_createdAt d) firstDayPreviousMonth)
                         (sqlLte (deal_createdAt d) lastDayPreviousMonth))
               (deals db) in
  let currentDealCount := orZeroInt currentMonthDeals in
  let previousDealCount := orZeroInt previousMonthDeals in
  let dealChange := monthOverMonth currentDealCount previousDealCount in
  let upcomingMeetingsResult :=
    countWhere (fun m => sqlAnd (sqlGte (meeting_startTime m) now)
                                (sqlEq (meeting_status m) "scheduled"))
               (meetings db) in
  let currentMonthMeetings :=
    countWhere (fun m => sqlGte (meeting_createdAt m) firstDayCurrentMonth)
               (meetings db) in
  let previousMonthMeetings :=
    countWhere (fun m =>
                  sqlAnd (sqlGte (meeting_createdAt m) firstDayPreviousMonth)
                         (sqlLte (meeting_createdAt m) lastDayPreviousMonth))
               (meetings db) in
  let currentMeetingCount := orZeroInt currentMonthMeetings in
  let previousMeetingCount := orZeroInt previousMonthMeetings in
  let meetingChange := monthOverMonth currentMeetingCount previousMeetingCount in
  today <- newDate ;;
  let todayDate := setHours0 today in
  let tomorrowDate := setDate todayDate (getDate todayDate + 1) in
  let tasksDueTodayResult :=
    countWhere (dueOpenTask todayDate tomorrowDate) (tasks db) in
  let completedTasksResult :=
    countWhere (fun t => sqlEq (task_status t) "completed") (tasks db) in
  let totalTasksResult := countAll (tasks db) in
  let completedTasks := orZeroInt completedTasksResult in
  let totalTasks := orZeroInt totalTasksResult in
  let taskCompletion := percentOf (ofInt completedTasks) totalTasks in
  ret {| customerCount := orZeroInt customerCountResult;
         customerGrowth := toFixed 1 customerGrowth;
         activeDeals := orZeroInt activeDealsResult;
         dealChange := toFixed 1 dealChange;
         upcomingMeetings := orZeroInt upcomingMeetingsResult;
         meetingChange := toFixed 1 meetingChange;
         tasksDueToday := orZeroInt tasksDueTodayResult;
         totalTasks := totalTasks;
         taskCompletion := toFixed 1 taskCompletion;
         totalSales := toFixed 2 totalSales;
         avgDealSize := toFixed 2 avgDealSize;
         winRate := toFixed 1 winRate;
         customerRetentionRate := toFixed 1 customerRetentionRate |}.

End Storage.

(** ** Vocabulary of the statements and concrete scenarios *)

Module Scenario.

Import JSDate JSNumber Schema SalesByPeriod Clock Storage.

(** Months counted from year 0: month [k] is month [k mod 12] of year
    [k / 12]. *)
Definition monthIndex (t : Z) : Z := getFullYear t * 12 + getMonth t.

(** Period [p] is labelled as calendar month [k] and starts at the first
    instant of its first day. *)
Definition startsMonth (p : PeriodData) (k : Z) : Prop :=
  name p = shortMonthName (k mod 12) /\
  getFullYear (startDate p) = k / 12 /\
  getMonth (startDate p) = k mod 12 /\
  getDate (startDate p) = 1 /\
  TimeWithinDay (startDate p) = 0.

Definition calendarMonthOf (p : PeriodData) : Z * Z :=
  (getFullYear (startDate p), getMonth (startDate p)).

(** Number of periods whose range contains the instant [t]. *)
Definition containing (periods : list PeriodData) (t : Z) : nat :=
  List.length (filter (inPeriod t) periods).

Definition sumCounts (rows : list StageRow) : Z :=
  fold_right Z.add 0 (map count rows).

Definition row (n : string) (v : Q) (c : Z) : SalesRow :=
  {| row_name := n; row_value := v; row_count := c |}.

Definition dealAt (v : Q) (t : Z) : Deal :=
  {| deal_stage := "lead"; deal_value := Some v; deal_createdAt := Some t |}.

(** 2024-03-15 12:00 *)
Definition mar15 : Z := newDate7 2024 2 15 12 0 0 0.

(** 2024-03-31 12:00 *)
Definition mar31 : Z := newDate7 2024 2 31 12 0 0 0.

(** 2024-06-10 12:00 *)
Definition jun10 : Z := newDate7 2024 5 10 12 0 0 0.

(** A deal of value 100 created on 2024-02-29 at 10:00, the last day of
    February. *)
Definition leapDayDeal : Deal := dealAt 100 (newDate7 2024 1 29 10 0 0 0).

(** A deal of value 100 created on 2024-06-03 at 12:00, seven days
    before [jun10] to the millisecond. *)
Definition boundaryDeal : Deal := dealAt 100 (newDate7 2024 5 3 12 0 0 0).

(** Customers created at or after [lo]. *)
Definition customersFrom (db : Store) (lo : Z) : Z :=
  Z.of_nat (List.length (filter
    (fun c => match customer_createdAt c with
              | Some t => lo <=? t
              | None => false
              end) (customers db))).

(** Customers created in the closed range from [lo] to [hi]. *)
Definition customersBetween (db : Store) (lo hi : Z) : Z :=
  Z.of_nat (List.length (filter
    (fun c => match customer_createdAt c with
              | Some t => (lo <=? t) && (t <=? hi)
              | None => false
              end) (customers db))).

(** Customers created at or after [lo] and strictly before [hi]. *)
Definition customersFromUntil (db : Store) (lo hi : Z) : Z :=
  Z.of_nat (List.length (filter
    (fun c => match customer_createdAt c with
              | Some t => (lo <=? t) && (t <? hi)
              | None => false
              end) (customers db))).

(** [(current - previous) / previous * 100] to one decimal place, and 0
    for an empty baseline. *)
Definition growthPercent (current previous : Z) : number :=
  if previous =? 0 then Num 0
  else toFixed 1 (Num ((inject_Z current - inject_Z previous)
                       / inject_Z previous * 100)%Q).

(** The clock [clk] with its [k]-th reading replaced by [t]. *)
Definition setReading (clk : readings) (k : nat) (t : Z) : readings :=
  fun i => if Nat.eqb i k then t else clk i.

Definition customerAt (t : Z) : Customer :=
  {| customer_createdAt := Some t |}.

(** 2024-02-15 12:00 *)
Definition feb15 : Z := newDate7 2024 1 15 12 0 0 0.

(** One customer from January, one created a quarter of a second after
    the reading [feb15]. *)
Definition lateCustomerStore : Store :=
  {| customers := [customerAt (newDate7 2024 0 10 9 0 0 0);
                   customerAt (newDate7 2024 1 15 12 0 0 250)];
     deals := []; tasks := []; meetings := [] |}.

(** One pending task due on 2024-02-16 at 01:00. *)
Definition nextDayTaskStore : Store :=
  {| customers := []; deals := [];
     tasks := [{| task_dueDate := Some (newDate7 2024 1 16 1 0 0 0);
                  task_status := Some "pending"%string |}];
     meetings := [] |}.

(** A clock that passes midnight between its first reading, 2024-02-15
    23:59:59.999, and the later ones, 2024-02-16 00:00:00.001. *)
Definition midnightClock : readings :=
  fun k => match k with
           | O => newDate7 2024 1 15 23 59 59 999
           | S _ => newDate7 2024 1 16 0 0 0 1
           end.

Definition emptyStore : Store :=
  {| customers := []; deals := []; tasks := []; meetings := [] |}.

(** No customer of [db] was created strictly after [lo] and strictly
    before [hi]. *)
Definition noCustomerWithin (db : Store) (lo hi : Z) : bool :=
  forallb (fun c => match customer_createdAt c with
                    | Some t => negb ((lo <? t) && (t <? hi))
                    | None => true
                    end) (customers db).

(** One customer created on 2024-01-31 at 10:00, the last day of January,
    and two created in February. *)
Definition lastDayCustomerStore : Store :=
  {| customers := [customerAt (newDate7 2024 0 31 10 0 0 0);
                   customerAt (newDate7 2024 1 3 9 0 0 0);
                   customerAt (newDate7 2024 1 4 9 0 0 0)];
     deals := []; tasks := []; meetings := [] |}.

Definition groupTotal (gs : list StageGroup) : Z :=
  fold_right Z.add 0 (map group_count gs).

End Scenario.

(** ** Further vocabulary for the period reports *)

Module PeriodVocabulary.

Import JSDate Schema SalesByPeriod.

(** The rolling week that ends [i] weeks before [now]. *)
Definition rollingWeek (now i : Z) : PeriodData :=
  {| name := "Week " ++ toString (8 - i);
     startDate := now - (7 * i + 7) * msPerDay;
     endDate := now - 7 * i * msPerDay;
     value := 0; count := 0 |}.

(** The calendar day of [t], as a number of days: the day that the year,
    the month and the day of the month read by the getters denote. *)
Definition calendarDay (t : Z) : Z :=
  MakeDay (getFullYear t) (getMonth t) (getDate t).

(** Period [p] is labelled Week [8 - i], opens on the calendar day
    [7 * i + 7] days before the day of [now] and closes on the calendar day
    [7 * i] days before it. *)
Definition weekOf (now : Z) (p : PeriodData) (i : Z) : Prop :=
  name p = ("Week " ++ toString (8 - i))%string /\
  calendarDay (startDate p) = calendarDay now - (7 * i + 7) /\
  calendarDay (endDate p) = calendarDay now - 7 * i.

(** Every period but the last closes at the very instant at which the
    next one opens. *)
Fixpoint chained (ps : list PeriodData) : Prop :=
  match ps with
  | p :: (q :: _) as rest => endDate p = startDate q /\ chained rest
  | _ => True
  end.

(** Quarters counted from year 0: quarter [k] is quarter [k mod 4 + 1] of
    year [k / 4]. *)
Definition quarterIndex (t : Z) : Z := getFullYear t * 4 + getMonth t / 3.

(** Period [p] is labelled as quarter [k], starts at the first instant
    of the quarter, and closes on the calendar day before the one on which
    the next quarter starts. *)
Definition coversQuarter (p : PeriodData) (k : Z) : Prop :=
  name p = ("Q" ++ toString (k mod 4 + 1) ++ " " ++ toString (k / 4))%string /\
  getFullYear (startDate p) = k / 4 /\
  getMonth (startDate p) = 3 * (k mod 4) /\
  getDate (startDate p) = 1 /\
  TimeWithinDay (startDate p) = 0 /\
  calendarDay (endDate p) + 1 =
    calendarDay (newDate3 ((k + 1) / 4) (3 * ((k + 1) mod 4)) 1).

(** Period [p] is labelled as year [y], starts at the first instant of
    the year, and closes one day before the next year starts. *)
Definition coversYear (p : PeriodData) (y : Z) : Prop :=
  name p = toString y /\
  startDate p = MakeDate (DayFromYear y) 0 /\
  endDate p + msPerDay = MakeDate (DayFromYear (y + 1)) 0.

(** The deals whose creation date lies in the closed range of [p]. *)
Definition dealsIn (ds : list Deal) (p : PeriodData) : list Deal :=
  filter (fun d => match deal_createdAt d with
                   | Some t => inPeriod t p
                   | None => false
                   end) ds.

(** Sum of the values of [ds], added in order to [start]. *)
Definition addValues (start : Q) (ds : list Deal) : Q :=
  fold_left (fun acc d => (acc + dealValue d)%Q) ds start.

(** The report row of period [p] for the deals [ds]. *)
Definition rowFor (ds : list Deal) (p : PeriodData) : SalesRow :=
  {| row_name := name p;
     row_value := roundCents (addValues 0 (dealsIn ds p));
     row_count := Z.of_nat (List.length (dealsIn ds p)) |}.

(** What the two nested [forEach] loops do to a single period. *)
Definition aggregateOne (p : PeriodData) (ds : list Deal) : PeriodData :=
  fold_left (fun q d => match deal_createdAt d with
                        | None => q
                        | Some t => addToPeriod t (dealValue d) q
                        end) ds p.

(** The sum of the values of [ds], a missing value counting as 0. *)
Definition sumValues (ds : list Deal) : Q :=
  fold_right (fun d acc => (dealValue d + acc)%Q) 0%Q ds.

End PeriodVocabulary.

(** ** The list queries of [server/storage.ts] *)

Module StorageQueries.

Import JSDate JSNumber Schema Clock Storage.

(** [ORDER BY key ASC] of PostgreSQL: a NULL key sorts after every
    value.  Rows with equal keys are kept in the order of the input, a
    choice SQL leaves open. *)
Definition ascBefore (a b : option Z) : bool :=
  match a, b with
  | Some x, Some y => x <? y
  | Some _, None => true
  | None, _ => false
  end.

Fixpoint insertAsc {A} (key : A -> option Z) (x : A) (l : list A) : list A :=
  match l with
  | [] => [x]
  | y :: l' =>
      if ascBefore (key y) (key x) then y :: insertAsc key x l' else x :: l
  end.

Definition orderByAsc {A} (key : A -> option Z) (l : list A) : list A :=
  fold_right (insertAsc key) [] l.

Definition getTasksDueToday (db : Store) : M (list Task) :=
  now <- newDate ;;
  let today := setHours0 now in
  let tomorrow := setDate today (getDate today + 1) in
  ret (orderByAsc task_dueDate
         (filter (fun t => holds (dueOpenTask today tomorrow t)) (tasks db))).

Definition getUpcomingMeetings (db : Store) : M (list Meeting) :=
  now <- newDate ;;
  ret (orderByAsc meeting_startTime
         (filter (fun m => holds (sqlAnd (sqlGte (meeting_startTime m) now)
                                         (sqlEq (meeting_status m) "scheduled")))
                 (meetings db))).

(** A number that is neither [NaN] nor an infinity. *)
Definition finite (x : number) : Prop := exists q, x = Num q.

(** A finite number between [lo] and [hi]. *)
Definition within (lo hi : Q) (x : number) : Prop :=
  exists q, x = Num q /\ (lo <= q)%Q /\ (q <= hi)%Q.

(** Key order of [ORDER BY key ASC]. *)
Definition ascLe (a b : option Z) : Prop :=
  match a, b with
  | Some x, Some y => x <= y
  | _, None => True
  | None, Some _ => False
  end.

(** An open task due on the calendar day of the instant [t]. *)
Definition dueOnDayOf (t : Z) (task : Task) : Prop :=
  exists due status,
    task_dueDate task = Some due /\ Day due = Day t /\
    task_status task = Some status /\
    status <> "completed"%string /\ status <> "cancelled"%string.

End StorageQueries.

(** ** More operations on numbers *)

Module JSNumberOps.

Import JSNumber.

Local Open Scope Q_scope.

(** [x + y] *)
Definition add (x y : number) : number :=
  match x, y with
  | Num a, Num b => Num (Qred (a + b))
  | NaN, _ | _, NaN => NaN
  | PosInf, NegInf | NegInf, PosInf => NaN
  | PosInf, _ | _, PosInf => PosInf
  | NegInf, _ | _, NegInf => NegInf
  end.

(** [Math.round(x)]: the nearest integer, a tie going up. *)
Definition round (x : number) : number :=
  match x with
  | Num q => Num (inject_Z (Qfloor (q + (1 # 2))))
  | _ => x
  end.

(** [x > 0] *)
Definition isPositive (x : number) : bool :=
  match x with
  | Num q => negb (Qle_bool q 0)
  | PosInf => true
  | _ => false
  end.

(** A finite number that is not negative. *)
Definition nonNegative (x : number) : Prop :=
  exists q, x = Num q /\ 0 <= q.

End JSNumberOps.

(** ** The charts fed by [/api/deals/by-stage] *)

Module DealCharts.

Import JSNumber JSNumberOps Storage.

(** The two tabs of the distribution chart: ["value"] and ["count"]. *)
Inductive chartType : Type := ByValue | ByCount.

(** What [STAGE_LABELS[key] || key] evaluates to: a text, or, when [key]
    names a member every object inherits, that member. *)
Inductive label : Type :=
| Text (s : string)
| PrototypeMember (key : string).

Definition STAGE_LABELS : list (string * string) :=
  [("lead", "Lead"); ("qualified", "Qualified"); ("proposal", "Proposal");
   ("negotiation", "Negotiation"); ("closed_won", "Closed Won");
   ("closed_lost", "Closed Lost")]%string.

Definition COLORS : list string :=
  ["#0088FE"; "#00C49F"; "#FFBB28"; "#FF8042"; "#8884D8"]%string.

Definition objectPrototypeKeys : list string :=
  ["constructor"; "hasOwnProperty"; "isPrototypeOf"; "propertyIsEnumerable";
   "toLocaleString"; "toString"; "valueOf"; "__proto__";
   "__defineGetter__"; "__defineSetter__"; "__lookupGetter__";
   "__lookupSetter__"]%string.

Fixpoint ownProperty (key : string) (obj : list (string * string))
  : option string :=
  match obj with
  | [] => None
  | (k, v) :: rest => if String.eqb k key then Some v else ownProperty key rest
  end.

(** [STAGE_LABELS[stage] || stage] *)
Definition stageLabel (stage : string) : label :=
  match ownProperty stage STAGE_LABELS with
  | Some text => Text text
  | None =>
      if existsb (String.eqb stage) objectPrototypeKeys
      then PrototypeMember stage
      else Text stage
  end.

Record Slice := {
  slice_name : label;
  slice_value : number;
  percentage : number;
  color : string
}.

(** [type === "value" ? stage.totalValue : stage.count] *)
Definition measure (type : chartType) (st : StageRow) : number :=
  match type with
  | ByValue => totalValue st
  | ByCount => ofInt (count st)
  end.

(** [xs.map((x, index) => f(index, x))], counting from [index]. *)
Fixpoint mapIndexed {A B} (f : nat -> A -> B) (index : nat) (xs : list A)
  : list B :=
  match xs with
  | [] => []
  | x :: rest => f index x :: mapIndexed f (S index) rest
  end.

Definition processData (data : option (list StageRow)) (type : chartType)
  : list Slice :=
  match data with
  | None => []
  | Some [] => []
  | Some rows =>
      let filteredData := filter (fun st => 0 <? count st) rows in
      let total :=
        fold_left (fun sum st => add sum (measure type st)) filteredData
                  (Num 0) in
      mapIndexed
        (fun index st =>
           {| slice_name := stageLabel (stage st);
              slice_value := measure type st;
              percentage :=
                round (mul (div (measure type st) total) (ofInt 100));
              color := nth (index mod 5) COLORS ""%string |})
        0%nat filteredData
  end.

(** *** [DealsProgress] *)

(** [dealsByStage?.reduce((sum, stage) => sum + stage.totalValue, 0) || 0] *)
Definition totalDealValue (dealsByStage : option (list StageRow)) : number :=
  match dealsByStage with
  | None => Num 0
  | Some rows =>
      orZero (fold_left (fun sum st => add sum (totalValue st)) rows (Num 0))
  end.

(** The width of the bar of one stage. *)
Definition barPercentage (dealsByStage : option (list StageRow))
    (st : StageRow) : number :=
  let total := totalDealValue dealsByStage in
  if isPositive total
  then round (mul (div (totalValue st) total) (ofInt 100))
  else Num 0.

(** The percentages of the bars drawn, one per stage; none when there is
    no data. *)
Definition barPercentages (dealsByStage : option (list StageRow))
  : list number :=
  match dealsByStage with
  | None => []
  | Some rows => map (barPercentage dealsByStage) rows
  end.

(** A deal without value, or of value zero. *)
Definition worthNothing (d : Schema.Deal) : Prop :=
  match Schema.deal_value d with
  | None => True
  | Some v => (v == 0)%Q
  end.

End DealCharts.

(** ** The task completion chart *)

Module TaskChart.

Import JSNumber JSNumberOps Schema.

Record TaskSlice := {
  slice_name : string;
  slice_value : Z;
  slice_color : string
}.

(** [statusCounts] is kept as the list of its own properties.  A status
    that names a member every object inherits makes the loop store a value
    that is not a number under that name; the chart reads only the four
    counters below, which such a status never touches, and the model
    stores a count there instead. *)

(** [statusCounts[key] || 0] *)
Fixpoint getCount (key : string) (statusCounts : list (string * Z)) : Z :=
  match statusCounts with
  | [] => 0
  | (k, v) :: rest => if String.eqb k key then v else getCount key rest
  end.

(** [statusCounts[key] = v] *)
Fixpoint setCount (key : string) (v : Z) (statusCounts : list (string * Z))
  : list (string * Z) :=
  match statusCounts with
  | [] => [(key, v)]
  | (k, w) :: rest =>
      if String.eqb k key then (k, v) :: rest
      else (k, w) :: setCount key v rest
  end.

(** [task.status || "pending"] *)
Definition statusOf (t : Task) : string :=
  match task_status t with
  | None => "pending"
  | Some s => if String.eqb s "" then "pending" else s
  end.

Definition processTaskData (tasks : option (list Task)) : list TaskSlice :=
  match tasks with
  | None => []
  | Some [] => []
  | Some ts =>
      let statusCounts :=
        fold_left
          (fun counts task =>
             let status := statusOf task in
             setCount status (getCount status counts + 1) counts)
          ts
          [("pending", 0); ("in_progress", 0); ("completed", 0);
           ("cancelled", 0)]%string in
      let data :=
        [ {| slice_name := "Pending";
             slice_value := getCount "pending" statusCounts;
             slice_color := "#FFBB28" |};
          {| slice_name := "In Progress";
             slice_value := getCount "in_progress" statusCounts;
             slice_color := "#0088FE" |};
          {| slice_name := "Completed";
             slice_value := getCount "completed" statusCounts;
             slice_color := "#00C49F" |};
          {| slice_name := "Cancelled";
             slice_value := getCount "cancelled" statusCounts;
             slice_color := "#FF8042" |} ] in
      filter (fun item => 0 <? slice_value item) data
  end.

(** [chartData.reduce((sum, item) => sum + item.value, 0)] *)
Definition totalTasks (chartData : list TaskSlice) : Z :=
  fold_left (fun sum item => sum + slice_value item) chartData 0.

(** [chartData.find(item => item.name === "Completed")?.value || 0] *)
Definition completedTasks (chartData : list TaskSlice) : Z :=
  match find (fun item => String.eqb (slice_name item) "Completed") chartData
  with
  | Some item => orZeroInt (slice_value item)
  | None => 0
  end.

(** [totalTasks ? Math.round((completedTasks / totalTasks) * 100) : 0] *)
Definition completionRate (chartData : list TaskSlice) : number :=
  if totalTasks chartData =? 0 then Num 0
  else round (mul (div (ofInt (completedTasks chartData))
                       (ofInt (totalTasks chartData)))
                  (ofInt 100)).

(** The number of tasks whose status reads [status]. *)
Definition tasksWithStatus (status : string) (ts : list Task) : Z :=
  Z.of_nat (List.length (filter (fun t => String.eqb (statusOf t) status) ts)).

End TaskChart.

(** ** The customer activity chart *)

Module CustomerActivity.

(** The fields of the customer and meeting rows the chart reads. *)
Record CustomerRow := { id : Z; name : string }.

Record MeetingRow := { customerId : option Z }.

Record MeetingBar := { bar_name : string; meetings : Z }.

Record InteractionBar := { interaction_name : string; interactions : Z }.

(** [map.get(key) || 0] on a [Map<number, number>] *)
Fixpoint mapGet (key : Z) (m : list (Z * Z)) : Z :=
  match m with
  | [] => 0
  | (k, v) :: rest => if k =? key then v else mapGet key rest
  end.

(** [map.set(key, v)] *)
Fixpoint mapSet (key v : Z) (m : list (Z * Z)) : list (Z * Z) :=
  match m with
  | [] => [(key, v)]
  | (k, w) :: rest =>
      if k =? key then (k, v) :: rest else (k, w) :: mapSet key v rest
  end.

(** [xs.sort((a, b) => key(b) - key(a))]: descending, and stable as the
    language requires. *)
Fixpoint insertDesc {A} (key : A -> Z) (x : A) (sorted : list A) : list A :=
  match sorted with
  | [] => [x]
  | y :: rest =>
      if key x <? key y then y :: insertDesc key x rest else x :: sorted
  end.

Definition sortDesc {A} (key : A -> Z) (xs : list A) : list A :=
  fold_right (insertDesc key) [] xs.

(** The loop that counts the meetings of each customer. *)
Definition countMeetings (ms : list MeetingRow) : list (Z * Z) :=
  fold_left
    (fun customerMeetings meeting =>
       match customerId meeting with
       | None => customerMeetings
       | Some cid =>
           if cid =? 0 then customerMeetings
           else mapSet cid (mapGet cid customerMeetings + 1) customerMeetings
       end)
    ms [].

Definition processMeetingData (customers : option (list CustomerRow))
    (ms : option (list MeetingRow)) : list MeetingBar :=
  match customers, ms with
  | Some cs, Some ms =>
      let customerMeetings := countMeetings ms in
      firstn 10
        (sortDesc meetings
           (map (fun customer =>
                   {| bar_name := name customer;
                      meetings := mapGet (id customer) customerMeetings |})
                cs))
  | _, _ => []
  end.

Definition processInteractionData (customers : option (list CustomerRow))
  : list InteractionBar :=
  match customers with
  | None => []
  | Some cs =>
      firstn 10
        (sortDesc interactions
           (map (fun customer =>
                   {| interaction_name := name customer;
                      interactions := Z.rem (id customer * 7) 15 + 3 |})
                cs))
  end.

(** The number of meetings booked for customer [cid]. *)
Definition meetingsOf (cid : Z) (ms : list MeetingRow) : Z :=
  Z.of_nat (List.length
    (filter (fun m => match customerId m with
                      | Some c => c =? cid
                      | None => false
                      end) ms)).

End CustomerActivity.

(** ** Vocabulary for the grouping by stage *)

Module StageVocabulary.

Import Schema Storage.

(** The deals of stage [s], in the order of the table. *)
Definition dealsAt (s : string) (ds : list Deal) : list Deal :=
  filter (fun d => String.eqb (deal_stage d) s) ds.

(** The first group of stage [s]. *)
Definition groupFor (s : string) (gs : list StageGroup) : option StageGroup :=
  find (fun g => String.eqb (group_stage g) s) gs.

(** A group, or none yet, after the deals [ds] of its stage joined it. *)
Definition joined (og : option StageGroup) (ds : list Deal)
  : option StageGroup :=
  fold_left
    (fun og d =>
       Some (match og with
             | Some g => {| group_stage := group_stage g;
                            group_count := group_count g + 1;
                            group_sum := sqlAdd (group_sum g) (deal_value d) |}
             | None => {| group_stage := deal_stage d; group_count := 1;
                          group_sum := deal_value d |}
             end))
    ds og.

End StageVocabulary.

(** ** Vocabulary for the totals over the deals *)

Module TotalsVocabulary.

Import Schema Storage Scenario.

(** Every value of [ds] that is present is a whole number. *)
Definition wholeValued (ds : list Deal) : bool :=
  forallb (fun d => match deal_value d with
                    | Some v => Qeq_bool v (inject_Z (Qfloor v))
                    | None => true
                    end) ds.

(** Two deals worth 100 and 200 and one without a value. *)
Definition threeDealStore : Store :=
  {| customers := [];
     deals := [dealAt 100 0;
               {| deal_stage := "lead"; deal_value := None;
                  deal_createdAt := Some 0 |};
               dealAt 200 0];
     tasks := []; meetings := [] |}.

End TotalsVocabulary.

(** * Properties *)

(** ** Calendar facts *)

Module JSDateFacts.

Import JSDate.

Ltac split_ifs :=
  repeat match goal with
  | |- context [if ?b then _ else _] =>
      let E := fresh "E" in destruct b eqn:E
  end.

Ltac bool_to_Z :=
  repeat match goal with
  | H : (_ <? _) = true |- _ => apply Z.ltb_lt in H
  | H : (_ <? _) = false |- _ => apply Z.ltb_ge in H
  | H : (_ <=? _) = true |- _ => apply Z.leb_le in H
  | H : (_ <=? _) = false |- _ => apply Z.leb_gt in H
  | H : (_ =? _) = true |- _ => apply Z.eqb_eq in H
  | H : (_ =? _) = false |- _ => apply Z.eqb_neq in H
  | H : negb _ = true |- _ => apply negb_true_iff in H
  | H : negb _ = false |- _ => apply negb_false_iff in H
  | H : (_ && _) = true |- _ => apply andb_true_iff in H; destruct H
  end.

(** [YearFromDay d] is the year whose days contain [d], as ECMAScript
    defines [YearFromTime]. *)
Lemma YearFromDay_spec (d : Z) :
  DayFromYear (YearFromDay d) <= d < DayFromYear (YearFromDay d + 1).
Proof.
  unfold YearFromDay, DayFromYear.
  split_ifs; bool_to_Z; Z.div_mod_to_equations; lia.
Qed.

Lemma DayFromYear_step (y : Z) :
  DayFromYear (y + 1) = DayFromYear y + DaysInYear y.
Proof.
  unfold DayFromYear, DaysInYear.
  split_ifs; bool_to_Z; Z.div_mod_to_equations; lia.
Qed.

Lemma DaysInYear_range (y : Z) : DaysInYear y = 365 \/ DaysInYear y = 366.
Proof. unfold DaysInYear. split_ifs; auto. Qed.

Lemma DaysInYear_leap (y : Z) : DaysInYear y = 365 + InLeapYear y.
Proof.
  unfold InLeapYear. destruct (DaysInYear_range y) as [H | H]; rewrite H;
    reflexivity.
Qed.

Lemma InLeapYear_range (y : Z) : InLeapYear y = 0 \/ InLeapYear y = 1.
Proof. unfold InLeapYear. split_ifs; auto. Qed.

Lemma DayFromYear_mono (a b : Z) : a <= b -> DayFromYear a <= DayFromYear b.
Proof. unfold DayFromYear. intros H. Z.div_mod_to_equations. lia. Qed.

Lemma YearFromDay_unique (y d : Z) :
  DayFromYear y <= d < DayFromYear (y + 1) -> YearFromDay d = y.
Proof.
  intros [Hlo Hhi].
  destruct (YearFromDay_spec d) as [Ylo Yhi].
  destruct (Z.lt_trichotomy (YearFromDay d) y) as [Hlt | [Heq | Hgt]]; auto.
  - pose proof (DayFromYear_mono (YearFromDay d + 1) y ltac:(lia)). lia.
  - pose proof (DayFromYear_mono (y + 1) (YearFromDay d) ltac:(lia)). lia.
Qed.

Lemma Day_MakeDate (d time : Z) :
  0 <= time < msPerDay -> Day (MakeDate d time) = d.
Proof.
  unfold Day, MakeDate, msPerDay. intros H. Z.div_mod_to_equations. lia.
Qed.

Lemma TimeWithinDay_MakeDate (d time : Z) :
  0 <= time < msPerDay -> TimeWithinDay (MakeDate d time) = time.
Proof.
  unfold TimeWithinDay, MakeDate, msPerDay. intros H.
  Z.div_mod_to_equations. lia.
Qed.

Lemma TimeWithinDay_range (t : Z) : 0 <= TimeWithinDay t < msPerDay.
Proof. unfold TimeWithinDay, msPerDay. Z.div_mod_to_equations. lia. Qed.

Lemma MakeDate_Day (t : Z) : MakeDate (Day t) (TimeWithinDay t) = t.
Proof.
  unfold MakeDate, Day, TimeWithinDay, msPerDay. Z.div_mod_to_equations. lia.
Qed.

Lemma DayWithinYear_range (t : Z) :
  0 <= DayWithinYear t < 365 + InLeapYear (YearFromTime t).
Proof.
  unfold DayWithinYear, YearFromTime.
  pose proof (YearFromDay_spec (Day t)) as H.
  rewrite DayFromYear_step, DaysInYear_leap in H. lia.
Qed.

Lemma MonthFromTime_range (t : Z) : 0 <= MonthFromTime t <= 11.
Proof. unfold MonthFromTime, MonthFromDayInYear. split_ifs; lia. Qed.

Lemma DayFromMonth_le (d l : Z) :
  0 <= d -> 0 <= l <= 1 -> DayFromMonth (MonthFromDayInYear d l) l <= d.
Proof.
  intros Hd Hl. unfold MonthFromDayInYear.
  split_ifs; unfold DayFromMonth; cbn [Z.eqb Pos.eqb]; bool_to_Z; lia.
Qed.

Lemma DateFromTime_pos (t : Z) : 1 <= DateFromTime t.
Proof.
  pose proof (DayWithinYear_range t) as H.
  assert (Hl : 0 <= InLeapYear (YearFromTime t) <= 1)
    by (destruct (InLeapYear_range (YearFromTime t)); lia).
  unfold DateFromTime, MonthFromTime.
  pose proof (DayFromMonth_le (DayWithinYear t) _ (proj1 H) Hl). lia.
Qed.

Lemma month_cases (m : Z) :
  0 <= m <= 11 ->
  m = 0 \/ m = 1 \/ m = 2 \/ m = 3 \/ m = 4 \/ m = 5 \/ m = 6 \/ m = 7 \/
  m = 8 \/ m = 9 \/ m = 10 \/ m = 11.
Proof. lia. Qed.

Lemma DayFromMonth_range (m l : Z) :
  0 <= m <= 11 -> 0 <= l <= 1 -> 0 <= DayFromMonth m l <= 334 + l.
Proof.
  intros Hm Hl. unfold DayFromMonth. split_ifs; lia.
Qed.

Lemma MonthFromDayInYear_DayFromMonth (m l dt : Z) :
  0 <= m <= 11 -> 0 <= l <= 1 -> 1 <= dt <= 28 ->
  MonthFromDayInYear (DayFromMonth m l + dt - 1) l = m.
Proof.
  intros Hm Hl Hdt.
  destruct (month_cases m Hm) as
    [-> | [-> | [-> | [-> | [-> | [-> | [-> | [-> | [-> | [-> | [-> | ->]]]]]]]]]]];
    cbn [DayFromMonth Z.eqb Pos.eqb]; unfold MonthFromDayInYear;
    split_ifs; bool_to_Z; lia.
Qed.

(** A date built from a month in range and a day up to the 28th reads
    back as that year, month and day. *)
Lemma civil_roundtrip (y m dt time : Z) :
  0 <= m <= 11 -> 1 <= dt <= 28 -> 0 <= time < msPerDay ->
  let t := MakeDate (DayFromYear y + DayFromMonth m (InLeapYear y) + dt - 1)
                    time in
  YearFromTime t = y /\ MonthFromTime t = m /\ DateFromTime t = dt.
Proof.
  intros Hm Hdt Htime t.
  assert (Hl : 0 <= InLeapYear y <= 1)
    by (destruct (InLeapYear_range y); lia).
  pose proof (DayFromMonth_range m (InLeapYear y) Hm Hl) as Hoff.
  assert (HY : YearFromTime t = y).
  { unfold YearFromTime, t. rewrite Day_MakeDate by assumption.
    apply YearFromDay_unique.
    rewrite DayFromYear_step, DaysInYear_leap. lia. }
  assert (HD : DayWithinYear t = DayFromMonth m (InLeapYear y) + dt - 1).
  { unfold DayWithinYear. rewrite HY. unfold t.
    rewrite Day_MakeDate by assumption. lia. }
  assert (HM : MonthFromTime t = m).
  { unfold MonthFromTime. rewrite HD, HY.
    apply MonthFromDayInYear_DayFromMonth; assumption. }
  repeat split; auto.
  unfold DateFromTime. rewrite HM, HY, HD. lia.
Qed.

(** The same through [MakeDay], whose month argument may be out of
    range. *)
Lemma MakeDay_roundtrip (y m dt time : Z) :
  1 <= dt <= 28 -> 0 <= time < msPerDay ->
  let t := MakeDate (MakeDay y m dt) time in
  YearFromTime t = y + m / 12 /\ MonthFromTime t = m mod 12 /\
  DateFromTime t = dt.
Proof.
  intros Hdt Htime. unfold MakeDay.
  apply civil_roundtrip; auto.
  pose proof (Z.mod_pos_bound m 12 ltac:(lia)). lia.
Qed.

Lemma YearFromTime_epoch (t : Z) : 0 <= t -> 1970 <= YearFromTime t.
Proof.
  intros Ht. unfold YearFromTime.
  destruct (YearFromDay_spec (Day t)) as [_ Hhi].
  assert (0 <= Day t) by (unfold Day, msPerDay; Z.div_mod_to_equations; lia).
  destruct (Z_lt_le_dec (YearFromDay (Day t)) 1970) as [Hlt | Hge]; auto.
  pose proof (DayFromYear_mono (YearFromDay (Day t) + 1) 1970 ltac:(lia)) as Hm.
  change (DayFromYear 1970) with 0 in Hm. lia.
Qed.

Lemma fullYearOf_id (y : Z) : 100 <= y -> fullYearOf y = y.
Proof.
  intros H. unfold fullYearOf.
  destruct (0 <=? y) eqn:E1; destruct (y <=? 99) eqn:E2; cbn;
    bool_to_Z; try reflexivity; lia.
Qed.

End JSDateFacts.

(** ** The period bucketizer *)

Module SalesByPeriodFacts.

Import JSDate JSDateFacts Schema SalesByPeriod Scenario.

Lemma generatePeriods_monthly (now : Z) :
  generatePeriods "monthly" now =
  [monthlyPeriod now 5; monthlyPeriod now 4; monthlyPeriod now 3;
   monthlyPeriod now 2; monthlyPeriod now 1; monthlyPeriod now 0].
Proof. reflexivity. Qed.

Lemma MakeTime_zero_range : 0 <= MakeTime 0 0 0 0 < msPerDay.
Proof. unfold MakeTime, msPerDay. lia. Qed.

(** With [now] on or before the 28th, the [i]-th monthly period is the
    calendar month [i] months before the month of [now]. *)
Lemma monthlyPeriod_startsMonth (now i : Z) :
  0 <= now -> getDate now <= 28 -> 0 <= i <= 5 ->
  startsMonth (monthlyPeriod now i) (monthIndex now - i).
Proof.
  intros Hnow Hday Hi.
  pose proof (YearFromTime_epoch now Hnow) as HY.
  pose proof (MonthFromTime_range now) as HM.
  pose proof (DateFromTime_pos now) as HD.
  pose proof (TimeWithinDay_range now) as HT.
  unfold getDate in Hday.
  assert (Hset : YearFromTime (setMonth now (MonthFromTime now - i)) =
                 YearFromTime now + (MonthFromTime now - i) / 12 /\
                 MonthFromTime (setMonth now (MonthFromTime now - i)) =
                 (MonthFromTime now - i) mod 12).
  { unfold setMonth.
    destruct (MakeDay_roundtrip (YearFromTime now) (MonthFromTime now - i)
                (DateFromTime now) (TimeWithinDay now) ltac:(lia) HT)
      as (Ey & Em & _).
    split; assumption. }
  destruct Hset as [Ey Em].
  assert (Hmn : 0 <= (MonthFromTime now - i) mod 12 < 12)
    by (apply Z.mod_pos_bound; lia).
  assert (Hyr : 1969 <= YearFromTime now + (MonthFromTime now - i) / 12)
    by (Z.div_mod_to_equations; lia).
  unfold startsMonth, monthlyPeriod, monthIndex, toLocaleMonthShort,
    getFullYear, getMonth, getDate, newDate3, newDate7; cbn [name startDate].
  rewrite Ey, Em, fullYearOf_id by lia.
  destruct (MakeDay_roundtrip
              (YearFromTime now + (MonthFromTime now - i) / 12)
              ((MonthFromTime now - i) mod 12) 1 (MakeTime 0 0 0 0)
              ltac:(lia) MakeTime_zero_range)
    as (Sy & Sm & Sd).
  rewrite Sy, Sm, Sd.
  rewrite TimeWithinDay_MakeDate by exact MakeTime_zero_range.
  assert (Ek : (YearFromTime now * 12 + MonthFromTime now - i) mod 12 =
               (MonthFromTime now - i) mod 12)
    by (Z.div_mod_to_equations; lia).
  assert (Eq : (YearFromTime now * 12 + MonthFromTime now - i) / 12 =
               YearFromTime now + (MonthFromTime now - i) / 12)
    by (Z.div_mod_to_equations; lia).
  rewrite Ek, Eq, Z.mod_mod by lia.
  rewrite (Z.div_small ((MonthFromTime now - i) mod 12) 12) by lia.
  repeat split; try reflexivity; lia.
Qed.

Lemma calendarMonthOf_startsMonth (p : PeriodData) (k : Z) :
  startsMonth p k -> calendarMonthOf p = (k / 12, k mod 12).
Proof.
  intros (_ & Hy & Hm & _). unfold calendarMonthOf. now rewrite Hy, Hm.
Qed.

Lemma calendarMonth_inj (a b : Z) :
  (a / 12, a mod 12) = (b / 12, b mod 12) -> a = b.
Proof.
  intros H. injection H as Hq Hr.
  rewrite (Z.div_mod a 12), (Z.div_mod b 12) by lia. lia.
Qed.

(** C10: with [now] on or before the 28th of its month, the monthly
    bucketizer generates exactly six periods; they are, oldest first, the
    six distinct calendar months that end with the month of [now], each
    labelled with its month name and starting on the first day of its
    month at midnight.  ([now] is a clock reading at or after the epoch, so
    every year involved has four digits.) *)
Theorem monthly_six_calendar_months (now : Z) :
  0 <= now -> getDate now <= 28 ->
  let periods := generatePeriods "monthly" now in
  List.length periods = 6%nat /\
  Forall2 startsMonth periods
    (map (fun i => monthIndex now - i) [5; 4; 3; 2; 1; 0]) /\
  NoDup (map calendarMonthOf periods).
Proof.
  intros Hnow Hday periods. subst periods.
  rewrite generatePeriods_monthly.
  assert (H : forall i, 0 <= i <= 5 ->
            startsMonth (monthlyPeriod now i) (monthIndex now - i))
    by (intros; now apply monthlyPeriod_startsMonth).
  split; [reflexivity | split].
  - cbn [map]. repeat constructor; apply H; lia.
  - cbn [map].
    rewrite (calendarMonthOf_startsMonth _ _ (H 5 ltac:(lia))),
      (calendarMonthOf_startsMonth _ _ (H 4 ltac:(lia))),
      (calendarMonthOf_startsMonth _ _ (H 3 ltac:(lia))),
      (calendarMonthOf_startsMonth _ _ (H 2 ltac:(lia))),
      (calendarMonthOf_startsMonth _ _ (H 1 ltac:(lia))),
      (calendarMonthOf_startsMonth _ _ (H 0 ltac:(lia))).
    repeat constructor; cbn [In]; intros Hin;
      repeat match goal with
      | Hor : _ \/ _ |- _ => destruct Hor as [Hor | Hor]
      | Heq : (_, _) = (_, _) |- _ => apply calendarMonth_inj in Heq; lia
      end; auto.
Qed.

(** The bound on the day cannot be dropped: on the 31st of March the
    months reached through [setMonth] overflow and repeat. *)
Example monthly_overflow_on_the_31st :
  map name (generatePeriods "monthly" mar31) =
  ["Oct"; "Dec"; "Dec"; "Jan"; "Mar"; "Mar"]%string.
Proof. vm_compute. reflexivity. Qed.

(** The spec's labelled scenario for a mid-month [now]. *)
Example monthly_labels_mar15 :
  map name (generatePeriods "monthly" mar15) =
  ["Oct"; "Nov"; "Dec"; "Jan"; "Feb"; "Mar"]%string.
Proof. vm_compute. reflexivity. Qed.

Lemma monthly_six_calendar_months_witness :
  0 <= mar15 /\ getDate mar15 <= 28 /\
  (let periods := generatePeriods "monthly" mar15 in
   List.length periods = 6%nat /\
   Forall2 startsMonth periods
     (map (fun i => monthIndex mar15 - i) [5; 4; 3; 2; 1; 0]) /\
   NoDup (map calendarMonthOf periods)).
Proof.
  assert (H0 : 0 <= mar15) by (vm_compute; discriminate).
  assert (H1 : getDate mar15 <= 28) by (vm_compute; discriminate).
  split; [exact H0 | split; [exact H1 |]].
  exact (monthly_six_calendar_months mar15 H0 H1).
Defined.

(** *** Deals on the closing day of a month *)

(** The closing bound of a monthly period is the midnight that opens
    its last day. *)
Lemma monthly_endDate_midnight (now i : Z) :
  TimeWithinDay (endDate (monthlyPeriod now i)) = 0.
Proof.
  unfold monthlyPeriod, newDate3, newDate7; cbn [endDate].
  apply TimeWithinDay_MakeDate, MakeTime_zero_range.
Qed.

(** Hence no instant of that day after midnight is inside the period. *)
Lemma monthly_endDate_day_excluded (now i t : Z) :
  Day t = Day (endDate (monthlyPeriod now i)) ->
  0 < TimeWithinDay t ->
  inPeriod t (monthlyPeriod now i) = false.
Proof.
  intros Hday Htime.
  pose proof (monthly_endDate_midnight now i) as Hmid.
  unfold inPeriod. apply andb_false_iff. right. apply Z.leb_gt.
  rewrite <- (MakeDate_Day t), <- (MakeDate_Day (endDate (monthlyPeriod now i))).
  rewrite Hday, Hmid. unfold MakeDate. lia.
Qed.

(** C1: the February 2024 period of the monthly report closes at
    2024-02-29 00:00, and a deal created that day at 10:00 is counted in
    no period at all: where the claim expects the February row to show the
    deal, every row of the report shows zero. *)
Theorem monthly_last_day_deal_dropped :
  endDate (monthlyPeriod mar15 1) = newDate3 2024 1 29 /\
  getSalesByPeriod (Some [leapDayDeal]) "monthly" mar15 =
  Normal [row "Oct" 0 0; row "Nov" 0 0; row "Dec" 0 0;
          row "Jan" 0 0; row "Feb" 0 0; row "Mar" 0 0].
Proof. split; vm_compute; reflexivity. Qed.

(** Only the first millisecond of the closing day is counted. *)
Example monthly_last_day_midnight_counted :
  getSalesByPeriod (Some [dealAt 100 (newDate3 2024 1 29)]) "monthly" mar15 =
  Normal [row "Oct" 0 0; row "Nov" 0 0; row "Dec" 0 0;
          row "Jan" 0 0; row "Feb" 100 1; row "Mar" 0 0].
Proof. vm_compute. reflexivity. Qed.

(** *** Empty deal set *)

(** C2, as stated, fails: for an empty deal set the monthly report is
    not the six generated periods with zero totals. *)
Lemma empty_deals_not_zeroed_periods :
  List.length (generatePeriods "monthly" mar15) = 6%nat /\
  getSalesByPeriod (Some []) "monthly" mar15 <>
  Normal (map display (generatePeriods "monthly" mar15)).
Proof. split; [reflexivity | vm_compute; discriminate]. Qed.

(** C2, amended: for every granularity and every clock reading, an empty
    deal set makes the bucketizer return the empty list, normally; no
    period is generated. *)
Theorem empty_deals_empty_result (period : string) (now : Z) :
  getSalesByPeriod (Some []) period now = Normal [].
Proof. reflexivity. Qed.

(** *** Unrecognised granularity *)

Lemma aggregate_nil (ds : list Deal) : aggregate [] ds = [].
Proof.
  unfold aggregate. induction ds as [| d ds IH]; cbn [fold_left].
  - reflexivity.
  - unfold addDeal at 2. destruct (deal_createdAt d); exact IH.
Qed.

Lemma generatePeriods_unknown (period : string) (now : Z) :
  period <> "weekly"%string -> period <> "monthly"%string ->
  period <> "quarterly"%string -> period <> "yearly"%string ->
  generatePeriods period now = [].
Proof.
  intros Hw Hm Hq Hy. unfold generatePeriods.
  apply String.eqb_neq in Hw, Hm, Hq, Hy.
  now rewrite Hw, Hm, Hq, Hy.
Qed.

(** C3, as stated, fails: the granularity ["daily"] completes normally
    with an empty report; nothing is thrown. *)
Lemma unknown_period_not_signalled :
  getSalesByPeriod (Some [leapDayDeal]) "daily" mar15 = Normal [] /\
  forall e, getSalesByPeriod (Some [leapDayDeal]) "daily" mar15 <> Throw e.
Proof. split; [reflexivity | intros e; discriminate]. Qed.

(** C3, amended: for every granularity string other than the four
    recognised ones, no period is generated and the bucketizer returns the
    empty list, normally, whatever the deals and the clock. *)
Theorem unknown_period_empty_result
    (deals : option (list Deal)) (period : string) (now : Z) :
  period <> "weekly"%string -> period <> "monthly"%string ->
  period <> "quarterly"%string -> period <> "yearly"%string ->
  generatePeriods period now = [] /\
  getSalesByPeriod deals period now = Normal [].
Proof.
  intros Hw Hm Hq Hy.
  pose proof (generatePeriods_unknown period now Hw Hm Hq Hy) as Hgen.
  split; [exact Hgen |].
  unfold getSalesByPeriod. destruct deals as [[| d ds] |]; try reflexivity.
  now rewrite Hgen, aggregate_nil.
Qed.

Lemma unknown_period_empty_result_witness :
  generatePeriods "daily" mar15 = [] /\
  getSalesByPeriod (Some [leapDayDeal]) "daily" mar15 = Normal [].
Proof.
  apply (unknown_period_empty_result (Some [leapDayDeal]) "daily" mar15);
    discriminate.
Defined.

(** *** Overlaps and gaps between periods *)

(** For every [now], the instant that opens a weekly period also closes
    the period before it, and lies inside both. *)
Lemma weekly_periods_share_bound (now i : Z) :
  let t := startDate (weeklyPeriod now i) in
  t = endDate (weeklyPeriod now (i + 1)) /\
  inPeriod t (weeklyPeriod now i) = true /\
  inPeriod t (weeklyPeriod now (i + 1)) = true.
Proof.
  cbv zeta. unfold inPeriod, weeklyPeriod; cbn [startDate endDate].
  replace ((i + 1) * 7) with (i * 7 + 7) by lia.
  repeat split.
  - apply andb_true_iff; split; apply Z.leb_le;
      unfold setDate, MakeDate, MakeDay, msPerDay; lia.
  - apply andb_true_iff; split; apply Z.leb_le;
      unfold setDate, MakeDate, MakeDay, msPerDay; lia.
Qed.

(** The last day of a year and of a quarter is left out in the same way
    as the last day of a month. *)
Example yearly_and_quarterly_gaps :
  containing (generatePeriods "yearly" mar15)
             (newDate7 2023 11 31 10 0 0 0) = 0%nat /\
  containing (generatePeriods "quarterly" mar15)
             (newDate7 2023 11 31 10 0 0 0) = 0%nat.
Proof. split; vm_compute; reflexivity. Qed.

(** C5: a single deal created exactly seven days before [now] lies on
    the shared bound of the two newest weekly periods and is counted in
    both, so the counts add up to 2 for one deal; and the deal of the last
    day of February is inside the window of the monthly report yet in none
    of its periods, so there the counts add up to 0. *)
Theorem periods_overlap_and_leave_gaps :
  getSalesByPeriod (Some [boundaryDeal]) "weekly" jun10 =
  Normal [row "Week 1" 0 0; row "Week 2" 0 0; row "Week 3" 0 0;
          row "Week 4" 0 0; row "Week 5" 0 0; row "Week 6" 0 0;
          row "Week 7" 100 1; row "Week 8" 100 1] /\
  containing (generatePeriods "weekly" jun10)
             (newDate7 2024 5 3 12 0 0 0) = 2%nat /\
  startDate (monthlyPeriod mar15 5) <= newDate7 2024 1 29 10 0 0 0
    <= endDate (monthlyPeriod mar15 0) /\
  containing (generatePeriods "monthly" mar15)
             (newDate7 2024 1 29 10 0 0 0) = 0%nat.
Proof.
  repeat split; try (vm_compute; reflexivity); vm_compute; discriminate.
Qed.

End SalesByPeriodFacts.

(** ** Numbers *)

Module JSNumberFacts.

Import JSNumber.

Local Open Scope Q_scope.

Lemma isNegative_Qeq (p q : Q) : p == q -> isNegative p = isNegative q.
Proof.
  unfold Qeq, isNegative. destruct p as [a b], q as [c d]; cbn. intros H.
  destruct (a <? 0)%Z eqn:E1, (c <? 0)%Z eqn:E2; try reflexivity;
    [apply Z.ltb_lt in E1; apply Z.ltb_ge in E2
    |apply Z.ltb_ge in E1; apply Z.ltb_lt in E2]; nia.
Qed.

(** Rounding does not depend on how the fraction is written. *)
Lemma toFixed_Qeq (digits : Z) (p q : Q) :
  p == q -> toFixed digits (Num p) = toFixed digits (Num q).
Proof.
  intros H. unfold toFixed. f_equal.
  rewrite (isNegative_Qeq p q H).
  assert (E : Qfloor (Qabs p * inject_Z (10 ^ digits) + (1 # 2)) =
              Qfloor (Qabs q * inject_Z (10 ^ digits) + (1 # 2)))
    by (now rewrite H).
  now rewrite E.
Qed.

Lemma Qeq_bool_inject_Z (n : Z) : Qeq_bool (inject_Z n) 0 = (n =? 0)%Z.
Proof.
  unfold Qeq_bool, inject_Z; cbn. rewrite Z.mul_1_r. reflexivity.
Qed.

Lemma orZeroInt_id (n : Z) : orZeroInt n = n.
Proof.
  unfold orZeroInt. destruct (n =? 0)%Z eqn:E; [| reflexivity].
  apply Z.eqb_eq in E. now subst.
Qed.

(** The quotient by a zero count is never a finite number. *)
Lemma div_by_zero_not_finite (x : number) (q : Q) : div x (ofInt 0) <> Num q.
Proof.
  destruct x as [a | | |]; cbn; try discriminate.
  destruct (Qeq_bool a 0); [discriminate |].
  destruct (isNegative a); discriminate.
Qed.

End JSNumberFacts.

(** ** The metric aggregator *)

Module StorageFacts.

Import JSDate JSNumber JSNumberFacts Schema Clock Storage Scenario.

(** *** Grouping deals by stage *)

Lemma addToGroups_total (d : Deal) (gs : list StageGroup) :
  groupTotal (addToGroups d gs) = groupTotal gs + 1.
Proof.
  unfold groupTotal.
  induction gs as [| g gs IH]; cbn [addToGroups].
  - reflexivity.
  - destruct (String.eqb (group_stage g) (deal_stage d));
      cbn [map fold_right group_count] in *; lia.
Qed.

Lemma addToGroups_positive (d : Deal) (gs : list StageGroup) :
  Forall (fun g => 1 <= group_count g) gs ->
  Forall (fun g => 1 <= group_count g) (addToGroups d gs).
Proof.
  induction 1 as [| g gs Hg Hgs IH]; cbn [addToGroups].
  - repeat constructor. cbn. lia.
  - destruct (String.eqb (group_stage g) (deal_stage d));
      constructor; cbn [group_count]; auto; lia.
Qed.

Lemma fold_addToGroups (ds : list Deal) :
  forall gs,
    Forall (fun g => 1 <= group_count g) gs ->
    let gs' := fold_left (fun acc d => addToGroups d acc) ds gs in
    Forall (fun g => 1 <= group_count g) gs' /\
    groupTotal gs' = groupTotal gs + Z.of_nat (List.length ds).
Proof.
  induction ds as [| d ds IH]; intros gs Hgs; cbn [fold_left List.length].
  - split; [assumption | lia].
  - destruct (IH (addToGroups d gs) (addToGroups_positive d gs Hgs))
      as [Hpos Htot].
    split; [exact Hpos |].
    cbv zeta in Htot. rewrite Htot, addToGroups_total. lia.
Qed.

Lemma addToGroups_stages (d : Deal) (gs : list StageGroup) :
  map group_stage (addToGroups d gs) =
  if existsb (fun g => String.eqb (group_stage g) (deal_stage d)) gs
  then map group_stage gs
  else map group_stage gs ++ [deal_stage d].
Proof.
  induction gs as [| g gs IH]; cbn [addToGroups existsb map app].
  - reflexivity.
  - destruct (String.eqb (group_stage g) (deal_stage d)); cbn [orb map].
    + reflexivity.
    + rewrite IH. now destruct (existsb _ gs).
Qed.

(** The grouping yields one row per stage. *)
Lemma groupByStage_NoDup (ds : list Deal) :
  NoDup (map group_stage (groupByStage ds)).
Proof.
  unfold groupByStage.
  assert (H : forall gs, NoDup (map group_stage gs) ->
            NoDup (map group_stage
                     (fold_left (fun acc d => addToGroups d acc) ds gs))).
  { induction ds as [| d ds IH]; intros gs Hgs; cbn [fold_left]; auto.
    apply IH. rewrite addToGroups_stages.
    destruct (existsb _ gs) eqn:E; auto.
    apply NoDup_app; [assumption | repeat constructor; cbn; tauto |].
    intros x Hin [Hx | []]. subst x.
    apply in_map_iff in Hin. destruct Hin as (g & Hg & Hing).
    assert (Ht : existsb
                   (fun g => String.eqb (group_stage g) (deal_stage d)) gs
                 = true).
    { apply existsb_exists. exists g. split; auto.
      now apply String.eqb_eq. }
    congruence. }
  apply H. constructor.
Qed.

(** C8: every row returned by [getDealsByStage] has a count of at least
    1, and the counts of the rows add up to the number of deals in the
    store. *)
Theorem getDealsByStage_counts (db : Store) :
  Forall (fun r => 1 <= count r) (getDealsByStage db) /\
  sumCounts (getDealsByStage db) = Z.of_nat (List.length (deals db)).
Proof.
  destruct (fold_addToGroups (deals db) [] (Forall_nil _)) as [Hpos Htot].
  cbv zeta in Hpos, Htot. fold (groupByStage (deals db)) in Hpos, Htot.
  unfold getDealsByStage, sumCounts. split.
  - apply Forall_map. revert Hpos. apply Forall_impl.
    intros g Hg. cbn [count]. now rewrite orZeroInt_id.
  - rewrite map_map. cbn [count].
    rewrite (map_ext _ group_count) by (intros; apply orZeroInt_id).
    exact Htot.
Qed.

(** The spec's two-deal scenario. *)
Example getDealsByStage_scenario :
  getDealsByStage
    {| customers := [];
       deals := [{| deal_stage := "closed_won"; deal_value := Some 100%Q;
                    deal_createdAt := Some (newDate3 2024 0 10) |};
                 {| deal_stage := "lead"; deal_value := Some 200%Q;
                    deal_createdAt := Some (newDate3 2024 1 5) |}];
       tasks := []; meetings := [] |} =
  [{| stage := "closed_won"; count := 1; totalValue := Num 100 |};
   {| stage := "lead"; count := 1; totalValue := Num 200 |}].
Proof. vm_compute. reflexivity. Qed.

(** *** Ratios over the number of deals *)

Lemma avgDealSize_run (db : Store) (clk : readings) (n : nat) :
  avgDealSize (fst (getDashboardStats db clk n)) =
  toFixed 2
    (if orZeroInt (countAll (deals db)) =? 0 then Num 0
     else div (orZero (Num (coalesce0 (sqlSum (map deal_value (deals db))))))
              (ofInt (orZeroInt (countAll (deals db))))).
Proof. reflexivity. Qed.

Lemma winRate_run (db : Store) (clk : readings) (n : nat) :
  winRate (fst (getDashboardStats db clk n)) =
  toFixed 1
    (percentOf
       (ofInt (orZeroInt
                 (countWhere (fun d => sqlEq (Some (deal_stage d)) "closed_won")
                             (deals db))))
       (orZeroInt (countAll (deals db)))).
Proof. reflexivity. Qed.

(** C7: when the store holds no deal, [avgDealSize] and [winRate] are
    both the number 0: the branch on [totalDeals === 0] answers, and
    neither quotient is formed (by [div_by_zero_not_finite] a quotient by
    a zero count would not be a finite number). *)
Theorem no_deals_zero_ratios (db : Store) (clk : readings) (n : nat) :
  countAll (deals db) = 0 ->
  avgDealSize (fst (getDashboardStats db clk n)) = Num 0 /\
  winRate (fst (getDashboardStats db clk n)) = Num 0.
Proof.
  intros H. rewrite avgDealSize_run, winRate_run. unfold percentOf.
  rewrite H. split; reflexivity.
Qed.

Lemma no_deals_zero_ratios_witness :
  countAll (deals emptyStore) = 0 /\
  avgDealSize (fst (getDashboardStats emptyStore midnightClock 0%nat)) = Num 0 /\
  winRate (fst (getDashboardStats emptyStore midnightClock 0%nat)) = Num 0.
Proof.
  split; [reflexivity |].
  apply (no_deals_zero_ratios emptyStore midnightClock 0%nat). reflexivity.
Defined.

(** The spec's two-deal scenario, read at 2024-02-15 12:00. *)
Example dashboard_scenario :
  let db := {| customers := [];
               deals := [{| deal_stage := "closed_won";
                            deal_value := Some 100%Q;
                            deal_createdAt := Some (newDate3 2024 0 10) |};
                         {| deal_stage := "lead"; deal_value := Some 200%Q;
                            deal_createdAt := Some (newDate3 2024 1 5) |}];
               tasks := []; meetings := [] |} in
  let s := fst (run (getDashboardStats db) (fun _ => feb15)) in
  totalSales s = Num 300 /\ avgDealSize s = Num 150 /\
  winRate s = Num 50 /\ activeDeals s = 1 /\
  tasksDueToday s = 0 /\ taskCompletion s = Num 0.
Proof. repeat split; vm_compute; reflexivity. Qed.

(** *** Percentages of counts *)

Lemma inject_Z_sub (a b : Z) :
  (inject_Z a - inject_Z b == inject_Z (a - b))%Q.
Proof. unfold Qeq, Qminus, Qplus, Qopp, inject_Z; cbn. lia. Qed.

Lemma inject_Z_nonzero (a : Z) : a <> 0 -> ~ (inject_Z a == 0)%Q.
Proof. intros Ha. unfold Qeq, inject_Z; cbn. lia. Qed.

(** The value of [((x - y) / d) * 100] for a non-zero count [d]. *)
Lemma percent_of_difference (x y d : Z) :
  d <> 0 ->
  toFixed 1 (mul (div (sub (ofInt x) (ofInt y)) (ofInt d)) (ofInt 100)) =
  toFixed 1 (Num ((inject_Z x - inject_Z y) / inject_Z d * 100)%Q).
Proof.
  intros Hd. unfold sub, div, mul, ofInt.
  rewrite Qeq_bool_inject_Z.
  destruct (d =? 0) eqn:E; [apply Z.eqb_eq in E; contradiction |].
  apply toFixed_Qeq.
  rewrite !Qred_correct. reflexivity.
Qed.

Lemma customerRetentionRate_run (db : Store) (clk : readings) (n : nat) :
  customerRetentionRate (fst (getDashboardStats db clk n)) =
  let endCustomers := orZeroInt (countAll (customers db)) in
  let newCustomers :=
    orZeroInt (countWhere
                 (fun c => sqlGte (customer_createdAt c)
                                  (firstDayCurrentMonthOf (clk n)))
                 (customers db)) in
  toFixed 1
    (if endCustomers - newCustomers =? 0 then Num 0
     else mul (div (sub (ofInt endCustomers) (ofInt newCustomers))
                   (ofInt (endCustomers - newCustomers)))
              (ofInt 100)).
Proof. reflexivity. Qed.

(** *** Month-over-month customer growth *)

Lemma holds_sqlGte (col : option Z) (v : Z) :
  holds (sqlGte col v) =
  match col with Some t => v <=? t | None => false end.
Proof. destruct col as [t |]; cbn; [destruct (v <=? t) |]; reflexivity. Qed.

Lemma holds_between (col : option Z) (lo hi : Z) :
  holds (sqlAnd (sqlGte col lo) (sqlLte col hi)) =
  match col with Some t => (lo <=? t) && (t <=? hi) | None => false end.
Proof.
  destruct col as [t |]; cbn; [| reflexivity].
  destruct (lo <=? t), (t <=? hi); reflexivity.
Qed.

Lemma countWhere_from (db : Store) (lo : Z) :
  countWhere (fun c => sqlGte (customer_createdAt c) lo) (customers db) =
  customersFrom db lo.
Proof.
  unfold countWhere, customersFrom. do 2 f_equal.
  apply filter_ext. intros c. apply holds_sqlGte.
Qed.

Lemma countWhere_between (db : Store) (lo hi : Z) :
  countWhere (fun c => sqlAnd (sqlGte (customer_createdAt c) lo)
                              (sqlLte (customer_createdAt c) hi))
             (customers db) =
  customersBetween db lo hi.
Proof.
  unfold countWhere, customersBetween. do 2 f_equal.
  apply filter_ext. intros c. apply holds_between.
Qed.

(** C9: with [startingCustomers] the number of customers less those
    created at or after the first day of the month of the clock reading,
    [customerRetentionRate] is 0 when [startingCustomers] is 0 and 100
    otherwise: the quotient has [endCustomers - newCustomers] above and
    below, so it is 1 whenever the zero branch does not answer.  In
    particular it is never a number other than 0 and 100. *)
Theorem customerRetentionRate_0_or_100
    (db : Store) (clk : readings) (n : nat) :
  let now := clk n in
  let endCustomers := Z.of_nat (List.length (customers db)) in
  let newCustomers :=
    customersFrom db (newDate3 (getFullYear now) (getMonth now) 1) in
  let startingCustomers := endCustomers - newCustomers in
  let rate := customerRetentionRate (fst (getDashboardStats db clk n)) in
  rate = (if startingCustomers =? 0 then Num 0 else Num 100) /\
  (rate = Num 0 \/ rate = Num 100).
Proof.
  cbv zeta.
  assert (E : customerRetentionRate (fst (getDashboardStats db clk n)) =
              if Z.of_nat (List.length (customers db)) -
                 customersFrom db
                   (newDate3 (getFullYear (clk n)) (getMonth (clk n)) 1)
                 =? 0
              then Num 0 else Num 100).
  { rewrite customerRetentionRate_run. cbv zeta.
    rewrite !orZeroInt_id, countWhere_from.
    unfold countAll, firstDayCurrentMonthOf.
    set (e := Z.of_nat (List.length (customers db))).
    set (a := customersFrom db _).
    destruct (e - a =? 0) eqn:E.
    - reflexivity.
    - apply Z.eqb_neq in E.
      rewrite (percent_of_difference e a (e - a) E).
      rewrite (toFixed_Qeq 1 _ 100%Q); [reflexivity |].
      rewrite inject_Z_sub. field. now apply inject_Z_nonzero. }
  split; [exact E |].
  rewrite E.
  match goal with |- context [?k =? 0] => destruct (k =? 0) end;
    [left | right]; reflexivity.
Qed.

Lemma customerGrowth_run (db : Store) (clk : readings) (n : nat) :
  customerGrowth (fst (getDashboardStats db clk n)) =
  toFixed 1
    (monthOverMonth
       (orZeroInt
          (countWhere (fun c => sqlGte (customer_createdAt c)
                                       (firstDayCurrentMonthOf (clk n)))
                      (customers db)))
       (orZeroInt
          (countWhere
             (fun c => sqlAnd (sqlGte (customer_createdAt c)
                                      (firstDayPreviousMonthOf (clk n)))
                              (sqlLte (customer_createdAt c)
                                      (lastDayPreviousMonthOf (clk n))))
             (customers db)))).
Proof. reflexivity. Qed.

(** C6, as stated, fails: a customer created after the reading of the
    clock is part of the current-month count, so the growth is 0 where the
    count up to [now] would give -100. *)
Lemma customerGrowth_counts_after_now :
  customerGrowth
    (fst (run (getDashboardStats lateCustomerStore) (fun _ => feb15))) =
  Num 0 /\
  growthPercent
    (customersFromUntil lateCustomerStore (newDate3 2024 1 1) feb15)
    (customersBetween lateCustomerStore (newDate3 2024 0 1)
                      (newDate3 2024 1 0)) =
  Num (-100).
Proof. split; vm_compute; reflexivity. Qed.

(** A customer created on the last day of the previous month after
    midnight is in neither window: with one customer of 2024-01-31 10:00
    and two of February, the baseline is empty and the growth is 0. *)
Example customerGrowth_last_day_of_previous_month :
  customerGrowth
    (fst (run (getDashboardStats lastDayCustomerStore) (fun _ => feb15))) =
  Num 0.
Proof. vm_compute. reflexivity. Qed.

Lemma last_day_before_first (y m : Z) : newDate3 y m 0 < newDate3 y m 1.
Proof. unfold newDate3, newDate7, MakeDate, MakeDay, msPerDay. lia. Qed.

(** With nobody created strictly between [mid] and [hi], the closed
    range up to [mid] holds the customers of the range up to, and not
    including, [hi]. *)
Lemma customersBetween_FromUntil (db : Store) (lo mid hi : Z) :
  mid < hi ->
  noCustomerWithin db mid hi = true ->
  customersBetween db lo mid = customersFromUntil db lo hi.
Proof.
  intros Hlt H. unfold customersBetween, customersFromUntil, noCustomerWithin in *.
  do 2 f_equal.
  induction (customers db) as [| c cs IH]; [reflexivity |].
  cbn [forallb] in H. apply andb_true_iff in H. destruct H as [Hc Hcs].
  cbn [filter]. rewrite (IH Hcs).
  destruct (customer_createdAt c) as [t |]; [| reflexivity].
  replace ((lo <=? t) && (t <=? mid)) with ((lo <=? t) && (t <? hi));
    [reflexivity |].
  f_equal.
  destruct (Z.ltb_spec t hi), (Z.leb_spec t mid), (Z.ltb_spec mid t);
    cbn in Hc; try reflexivity; try lia; discriminate Hc.
Qed.

(** C6, amended: with [now] the first reading of the clock, and for a
    store in which no customer was created on the last day of the previous
    month after midnight, [customerGrowth] is the number the expression
    [((current - previous) / previous) * 100] gives, returned to one
    decimal place by [toFixed], where [current] counts the customers
    created at or after the first day of the month of [now], with no upper
    bound, and [previous] those created in the previous month, from its
    first day up to the first day of the month of [now]; when [previous]
    is 0 the result is the number 0. *)
Theorem customerGrowth_formula (db : Store) (clk : readings) (n : nat) :
  let now := clk n in
  let firstDayCurrentMonth := newDate3 (getFullYear now) (getMonth now) 1 in
  let firstDayPreviousMonth :=
    newDate3 (getFullYear now) (getMonth now - 1) 1 in
  let lastDayPreviousMonth := newDate3 (getFullYear now) (getMonth now) 0 in
  let current := customersFrom db firstDayCurrentMonth in
  let previous :=
    customersFromUntil db firstDayPreviousMonth firstDayCurrentMonth in
  noCustomerWithin db lastDayPreviousMonth firstDayCurrentMonth = true ->
  customerGrowth (fst (getDashboardStats db clk n)) =
  if previous =? 0 then Num 0
  else toFixed 1 (mul (div (sub (ofInt current) (ofInt previous))
                           (ofInt previous))
                      (ofInt 100)).
Proof.
  cbv zeta. intros Hnone.
  rewrite customerGrowth_run, !orZeroInt_id.
  rewrite countWhere_from, countWhere_between.
  unfold firstDayCurrentMonthOf, firstDayPreviousMonthOf,
    lastDayPreviousMonthOf, monthOverMonth.
  rewrite (customersBetween_FromUntil db _ _ _
             (last_day_before_first _ _) Hnone).
  match goal with |- context [?p =? 0] => destruct (p =? 0) end;
    reflexivity.
Qed.

Lemma customerGrowth_formula_witness :
  noCustomerWithin lateCustomerStore
    (newDate3 (getFullYear feb15) (getMonth feb15) 0)
    (newDate3 (getFullYear feb15) (getMonth feb15) 1) = true /\
  customerGrowth
    (fst (getDashboardStats lateCustomerStore (fun _ => feb15) 0%nat)) =
  if customersFromUntil lateCustomerStore
       (newDate3 (getFullYear feb15) (getMonth feb15 - 1) 1)
       (newDate3 (getFullYear feb15) (getMonth feb15) 1) =? 0
  then Num 0
  else toFixed 1
         (mul (div (sub (ofInt (customersFrom lateCustomerStore
                                  (newDate3 (getFullYear feb15)
                                            (getMonth feb15) 1)))
                        (ofInt (customersFromUntil lateCustomerStore
                                  (newDate3 (getFullYear feb15)
                                            (getMonth feb15 - 1) 1)
                                  (newDate3 (getFullYear feb15)
                                            (getMonth feb15) 1))))
                   (ofInt (customersFromUntil lateCustomerStore
                             (newDate3 (getFullYear feb15)
                                       (getMonth feb15 - 1) 1)
                             (newDate3 (getFullYear feb15)
                                       (getMonth feb15) 1))))
              (ofInt 100)).
Proof.
  assert (H0 : noCustomerWithin lateCustomerStore
                 (newDate3 (getFullYear feb15) (getMonth feb15) 0)
                 (newDate3 (getFullYear feb15) (getMonth feb15) 1) = true)
    by (vm_compute; reflexivity).
  split; [exact H0 |].
  exact (customerGrowth_formula lateCustomerStore (fun _ => feb15) 0%nat H0).
Defined.

(** *** Readings of the clock *)

Lemma getDashboardStats_reads (db : Store) (clk : readings) (n : nat) :
  snd (getDashboardStats db clk n) = S (S n).
Proof. reflexivity. Qed.

(** The month comparisons, the retention rate and the count of upcoming
    meetings are functions of the first reading. *)
Lemma month_metrics_first_reading (db : Store) (clk clk' : readings) (n : nat) :
  clk n = clk' n ->
  let s := fst (getDashboardStats db clk n) in
  let s' := fst (getDashboardStats db clk' n) in
  customerGrowth s = customerGrowth s' /\
  dealChange s = dealChange s' /\
  meetingChange s = meetingChange s' /\
  upcomingMeetings s = upcomingMeetings s' /\
  customerRetentionRate s = customerRetentionRate s'.
Proof.
  intros H. cbv zeta.
  unfold getDashboardStats, bind, newDate, ret.
  cbn [fst customerGrowth dealChange meetingChange upcomingMeetings
       customerRetentionRate].
  rewrite H. repeat split; reflexivity.
Qed.

(** The count of tasks due today is a function of the second reading. *)
Lemma tasksDueToday_second_reading
    (db : Store) (clk clk' : readings) (n : nat) :
  clk (S n) = clk' (S n) ->
  tasksDueToday (fst (getDashboardStats db clk n)) =
  tasksDueToday (fst (getDashboardStats db clk' n)).
Proof.
  intros H. unfold getDashboardStats, bind, newDate, ret.
  cbn [fst tasksDueToday]. rewrite H. reflexivity.
Qed.

Lemma setReading_other (clk : readings) (k i : nat) (t : Z) :
  i <> k -> setReading clk k t i = clk i.
Proof.
  intros H. unfold setReading. apply Nat.eqb_neq in H. now rewrite H.
Qed.

(** C4, as stated, fails: the clock is read twice, and when midnight
    passes between the two readings the task due on the second day is
    counted, although no task is due on the day of the first reading (the
    count obtained when both readings return the first timestamp). *)
Lemma tasksDueToday_uses_second_reading :
  snd (run (getDashboardStats nextDayTaskStore) midnightClock) = 2%nat /\
  tasksDueToday (fst (run (getDashboardStats nextDayTaskStore) midnightClock))
    = 1 /\
  tasksDueToday
    (fst (run (getDashboardStats nextDayTaskStore)
              (fun _ => midnightClock 0%nat))) = 0.
Proof. repeat split; vm_compute; reflexivity. Qed.

(** C4, amended: every invocation of [getDashboardStats] reads the clock
    exactly twice.  The customer, deal and meeting month-over-month
    comparisons, the retention rate and the upcoming-meetings count are
    evaluated relative to the first reading: replacing the second reading
    by any [t] leaves them unchanged.  The tasks-due-today count is
    evaluated relative to the second reading: replacing the first reading
    by any [t] leaves it unchanged. *)
Theorem dashboard_two_clock_readings
    (db : Store) (clk : readings) (n : nat) (t : Z) :
  let s := fst (getDashboardStats db clk n) in
  let s2 := fst (getDashboardStats db (setReading clk (S n) t) n) in
  let s1 := fst (getDashboardStats db (setReading clk n t) n) in
  snd (getDashboardStats db clk n) = S (S n) /\
  (customerGrowth s2 = customerGrowth s /\
   dealChange s2 = dealChange s /\
   meetingChange s2 = meetingChange s /\
   upcomingMeetings s2 = upcomingMeetings s /\
   customerRetentionRate s2 = customerRetentionRate s) /\
  tasksDueToday s1 = tasksDueToday s.
Proof.
  cbv zeta. split; [apply getDashboardStats_reads | split].
  - apply month_metrics_first_reading, setReading_other. auto.
  - apply tasksDueToday_second_reading, setReading_other. auto.
Qed.

End StorageFacts.

(** * Further properties *)

(** ** Dates moved by whole days *)

Module JSDateShiftFacts.

Import JSDate JSDateFacts.

(** The civil date of a time value builds back the day it came from. *)
Lemma MakeDay_of_time (t : Z) :
  MakeDay (YearFromTime t) (MonthFromTime t) (DateFromTime t) = Day t.
Proof.
  pose proof (MonthFromTime_range t) as Hm.
  unfold MakeDay, DateFromTime.
  rewrite (Z.div_small (MonthFromTime t) 12), (Z.mod_small (MonthFromTime t) 12)
    by lia.
  rewrite Z.add_0_r. unfold DayWithinYear. lia.
Qed.

Lemma MakeDay_date_shift (y m d k : Z) :
  MakeDay y m (d + k) = MakeDay y m d + k.
Proof. unfold MakeDay. lia. Qed.

(** On the local time line, [d.setDate(d.getDate() + k)] moves [d] by
    [k] days. *)
Lemma setDate_shift (t k : Z) :
  setDate t (getDate t + k) = t + k * msPerDay.
Proof.
  unfold setDate, getDate.
  rewrite MakeDay_date_shift, MakeDay_of_time.
  rewrite <- (MakeDate_Day t) at 3. unfold MakeDate. lia.
Qed.

(** A month has at least 28 days: the day before the first of the next
    month is at least 27 days after the first of the month. *)
Lemma month_at_least_28_days (y m : Z) :
  0 <= m <= 11 -> MakeDay y m 1 + 27 <= MakeDay y (m + 1) 0.
Proof.
  intros Hm. unfold MakeDay.
  destruct (InLeapYear_range y) as [L | L];
  destruct (month_cases m Hm) as
    [-> | [-> | [-> | [-> | [-> | [-> | [-> | [-> | [-> | [-> | [-> | ->]]]]]]]]]]];
    cbn [Z.add Z.div Z.modulo Z.div_eucl Z.pos_div_eucl Pos.add Pos.succ
         Z.leb Z.ltb Z.compare Pos.compare Pos.compare_cont Z.mul Pos.mul
         Z.sub Z.opp Z.pos_sub Z.succ_double Z.pred_double Z.double
         Pos.pred_double fst snd];
    rewrite ?Z.add_0_r, ?DayFromYear_step, ?DaysInYear_leap, ?L;
    unfold DayFromMonth; cbn [Z.eqb Pos.eqb]; rewrite ?L; lia.
Qed.

End JSDateShiftFacts.

(** ** Shape of the generated periods *)

Module PeriodFacts.

Import JSDate JSDateFacts JSDateShiftFacts Schema SalesByPeriod Scenario
  SalesByPeriodFacts PeriodVocabulary.

(** *** Weekly *)

Lemma weeklyPeriod_rolling (now i : Z) :
  weeklyPeriod now i = rollingWeek now i.
Proof.
  unfold weeklyPeriod, rollingWeek.
  replace (getDate now - (i * 7 + 7)) with (getDate now + - (7 * i + 7))
    by lia.
  replace (getDate now - i * 7) with (getDate now + - (7 * i)) by lia.
  rewrite !setDate_shift. f_equal; lia.
Qed.

Lemma generatePeriods_weekly (now : Z) :
  generatePeriods "weekly" now =
  map (weeklyPeriod now) [7; 6; 5; 4; 3; 2; 1; 0].
Proof. reflexivity. Qed.

Lemma calendarDay_Day (t : Z) : calendarDay t = Day t.
Proof. apply MakeDay_of_time. Qed.

Lemma Day_shift (t k : Z) : Day (t + k * msPerDay) = Day t + k.
Proof. unfold Day, msPerDay. now rewrite Z.div_add by lia. Qed.

Lemma weeklyPeriod_weekOf (now i : Z) : weekOf now (weeklyPeriod now i) i.
Proof.
  rewrite weeklyPeriod_rolling.
  unfold weekOf, rollingWeek; cbn [name startDate endDate].
  rewrite !calendarDay_Day.
  replace (now - (7 * i + 7) * msPerDay)
    with (now + - (7 * i + 7) * msPerDay) by lia.
  replace (now - 7 * i * msPerDay) with (now + - (7 * i) * msPerDay) by lia.
  rewrite !Day_shift. repeat split; lia.
Qed.

(** X1: whatever the clock reads, the weekly report has the eight
    periods Week 1 to Week 8, oldest first; Week [8 - i] opens on the
    calendar day [7 * i + 7] days before the day of [now] and closes on the
    calendar day [7 * i] days before it; and every week opens at the very
    instant at which the week before it closes. *)
Theorem weekly_periods_rolling (now : Z) :
  Forall2 (weekOf now) (generatePeriods "weekly" now)
          [7; 6; 5; 4; 3; 2; 1; 0] /\
  chained (generatePeriods "weekly" now).
Proof.
  rewrite generatePeriods_weekly. cbn [map]. split.
  - repeat constructor; apply weeklyPeriod_weekOf.
  - cbn [chained]. repeat split; reflexivity.
Qed.

(** *** Monthly *)

Section Monthly.

Variable now : Z.
Hypothesis now_epoch : 0 <= now.
Hypothesis now_day : getDate now <= 28.

Let Y := YearFromTime now.
Let M := MonthFromTime now.

Lemma setMonth_year_month (i : Z) :
  YearFromTime (setMonth now (M - i)) = Y + (M - i) / 12 /\
  MonthFromTime (setMonth now (M - i)) = (M - i) mod 12.
Proof.
  pose proof (DateFromTime_pos now) as HD.
  pose proof (TimeWithinDay_range now) as HT.
  unfold getDate in now_day. unfold setMonth.
  destruct (MakeDay_roundtrip (YearFromTime now) (M - i)
              (DateFromTime now) (TimeWithinDay now) ltac:(lia) HT)
    as (Ey & Em & _).
  split; assumption.
Qed.

Lemma monthlyPeriod_bounds (i : Z) :
  0 <= i <= 5 ->
  startDate (monthlyPeriod now i) =
    MakeDate (MakeDay (Y + (M - i) / 12) ((M - i) mod 12) 1) 0 /\
  endDate (monthlyPeriod now i) =
    MakeDate (MakeDay (Y + (M - i) / 12) ((M - i) mod 12 + 1) 0) 0.
Proof.
  intros Hi.
  pose proof (YearFromTime_epoch now now_epoch) as HY.
  pose proof (MonthFromTime_range now) as HM.
  destruct (setMonth_year_month i) as [Ey Em].
  assert (Hyr : 1969 <= Y + (M - i) / 12)
    by (subst Y M; Z.div_mod_to_equations; lia).
  unfold monthlyPeriod, newDate3, newDate7, getFullYear, getMonth;
    cbn [startDate endDate].
  fold M. rewrite Ey, Em, fullYearOf_id by lia.
  split; reflexivity.
Qed.

Lemma monthly_gap_one_day (i : Z) :
  1 <= i <= 5 ->
  endDate (monthlyPeriod now i) + msPerDay =
  startDate (monthlyPeriod now (i - 1)).
Proof.
  intros Hi.
  destruct (monthlyPeriod_bounds i ltac:(lia)) as [_ He].
  destruct (monthlyPeriod_bounds (i - 1) ltac:(lia)) as [Hs _].
  rewrite He, Hs. unfold MakeDate, MakeDay.
  assert (Hm : 0 <= (M - i) mod 12 < 12) by (apply Z.mod_pos_bound; lia).
  assert (Hm' : 0 <= (M - (i - 1)) mod 12 < 12)
    by (apply Z.mod_pos_bound; lia).
  replace (Y + (M - i) / 12 + ((M - i) mod 12 + 1) / 12)
    with (Y + (M - (i - 1)) / 12) by (Z.div_mod_to_equations; lia).
  replace (((M - i) mod 12 + 1) mod 12) with ((M - (i - 1)) mod 12)
    by (Z.div_mod_to_equations; lia).
  rewrite (Z.div_small ((M - (i - 1)) mod 12) 12) by lia.
  rewrite (Z.mod_small ((M - (i - 1)) mod 12) 12) by lia.
  rewrite !Z.add_0_r. unfold msPerDay. lia.
Qed.

Lemma monthly_start_before_end (i : Z) :
  0 <= i <= 5 ->
  startDate (monthlyPeriod now i) + 27 * msPerDay <=
  endDate (monthlyPeriod now i).
Proof.
  intros Hi.
  destruct (monthlyPeriod_bounds i Hi) as [Hs He]. rewrite Hs, He.
  assert (Hm : 0 <= (M - i) mod 12 < 12) by (apply Z.mod_pos_bound; lia).
  pose proof (month_at_least_28_days (Y + (M - i) / 12) ((M - i) mod 12)
                ltac:(lia)).
  unfold MakeDate, msPerDay. lia.
Qed.

Lemma monthly_periods_ordered :
  StronglySorted (fun p q => endDate p < startDate q)
                 (generatePeriods "monthly" now).
Proof.
  rewrite generatePeriods_monthly.
  pose proof (monthly_gap_one_day 1 ltac:(lia)) as G1.
  pose proof (monthly_gap_one_day 2 ltac:(lia)) as G2.
  pose proof (monthly_gap_one_day 3 ltac:(lia)) as G3.
  pose proof (monthly_gap_one_day 4 ltac:(lia)) as G4.
  pose proof (monthly_gap_one_day 5 ltac:(lia)) as G5.
  change (1 - 1) with 0 in G1. change (2 - 1) with 1 in G2.
  change (3 - 1) with 2 in G3. change (4 - 1) with 3 in G4.
  change (5 - 1) with 4 in G5.
  pose proof (monthly_start_before_end 0 ltac:(lia)) as S0.
  pose proof (monthly_start_before_end 1 ltac:(lia)) as S1.
  pose proof (monthly_start_before_end 2 ltac:(lia)) as S2.
  pose proof (monthly_start_before_end 3 ltac:(lia)) as S3.
  pose proof (monthly_start_before_end 4 ltac:(lia)) as S4.
  unfold msPerDay in *.
  repeat (apply SSorted_cons; [| repeat apply Forall_cons; try lia;
                                 apply Forall_nil]).
  apply SSorted_nil.
Qed.

End Monthly.

Lemma Day_mono (a b : Z) : a <= b -> Day a <= Day b.
Proof. intros H. unfold Day, msPerDay. now apply Z.div_le_mono. Qed.



Lemma filter_none {A} (f : A -> bool) (l : list A) :
  Forall (fun x => f x = false) l -> filter f l = [].
Proof.
  induction 1 as [| x l Hx _ IH]; cbn [filter]; [reflexivity |].
  now rewrite Hx.
Qed.

(** Periods that follow one another with a gap never share an instant. *)
Lemma containing_ordered (ps : list PeriodData) (t : Z) :
  StronglySorted (fun p q => endDate p < startDate q) ps ->
  (containing ps t <= 1)%nat.
Proof.
  unfold containing.
  induction 1 as [| p ps Hs IH Hall]; cbn [filter List.length]; [lia |].
  destruct (inPeriod t p) eqn:E; cbn [List.length]; [| exact IH].
  rewrite filter_none; [cbn; lia |].
  revert Hall. apply Forall_impl. intros q Hq.
  unfold inPeriod in *. apply andb_true_iff in E. destruct E as [_ E].
  apply Z.leb_le in E. apply andb_false_iff. left.
  apply Z.leb_gt. lia.
Qed.

(** X3: with [now] on or before the 28th, no instant, hence no deal,
    falls in two monthly periods. *)
Theorem monthly_no_overlap (now t : Z) :
  0 <= now -> getDate now <= 28 ->
  (containing (generatePeriods "monthly" now) t <= 1)%nat.
Proof.
  intros H0 H28. apply containing_ordered.
  now apply monthly_periods_ordered.
Qed.

Lemma monthly_no_overlap_witness :
  0 <= mar15 /\ getDate mar15 <= 28 /\
  (containing (generatePeriods "monthly" mar15) (newDate3 2024 1 29) <= 1)%nat.
Proof.
  assert (H0 : 0 <= mar15) by (vm_compute; discriminate).
  assert (H1 : getDate mar15 <= 28) by (vm_compute; discriminate).
  split; [exact H0 | split; [exact H1 |]].
  exact (monthly_no_overlap mar15 (newDate3 2024 1 29) H0 H1).
Defined.


(** *** Quarterly *)

Lemma generatePeriods_quarterly (now : Z) :
  generatePeriods "quarterly" now =
  map (quarterlyPeriod now) [3; 2; 1; 0].
Proof. reflexivity. Qed.

Lemma quarterlyPeriod_coversQuarter (now i : Z) :
  0 <= now -> 0 <= i <= 3 ->
  coversQuarter (quarterlyPeriod now i) (quarterIndex now - i).
Proof.
  intros Hnow Hi.
  pose proof (YearFromTime_epoch now Hnow) as HY.
  pose proof (MonthFromTime_range now) as HM.
  unfold coversQuarter, quarterlyPeriod, quarterIndex, getFullYear, getMonth,
    getDate; cbn [name startDate endDate].
  set (Y := YearFromTime now) in *. set (M := MonthFromTime now) in *.
  set (k := Y * 4 + M / 3 - i).
  assert (Ha : 0 <= k mod 4 < 4) by (apply Z.mod_pos_bound; lia).
  assert (Eyear : Y - (if (M - i * 3) / 3 + 1 <? 1 then 1 else 0) = k / 4).
  { subst k. destruct ((M - i * 3) / 3 + 1 <? 1) eqn:E; bool_to_Z;
      Z.div_mod_to_equations; lia. }
  assert (Eadj : (if (M - i * 3) / 3 + 1 <? 1
                  then (M - i * 3) / 3 + 1 + 4 else (M - i * 3) / 3 + 1) =
                 k mod 4 + 1).
  { subst k. destruct ((M - i * 3) / 3 + 1 <? 1) eqn:E; bool_to_Z;
      Z.div_mod_to_equations; lia. }
  rewrite Eyear, Eadj.
  assert (Hyr : 1969 <= k / 4) by (subst k; Z.div_mod_to_equations; lia).
  assert (Hyr' : 1969 <= (k + 1) / 4) by (Z.div_mod_to_equations; lia).
  unfold newDate3, newDate7. rewrite !fullYearOf_id by lia.
  replace ((k mod 4 + 1 - 1) * 3) with (3 * (k mod 4)) by lia.
  destruct (MakeDay_roundtrip (k / 4) (3 * (k mod 4)) 1 (MakeTime 0 0 0 0)
              ltac:(lia) MakeTime_zero_range) as (Sy & Sm & Sd).
  rewrite Sy, Sm, Sd.
  rewrite TimeWithinDay_MakeDate by exact MakeTime_zero_range.
  rewrite (Z.div_small (3 * (k mod 4)) 12), (Z.mod_small (3 * (k mod 4)) 12)
    by lia.
  repeat split; try reflexivity; try lia.
  rewrite !calendarDay_Day, !Day_MakeDate by exact MakeTime_zero_range.
  unfold MakeDay.
  assert (Ey : k / 4 + (k mod 4 + 1) * 3 / 12 =
               (k + 1) / 4 + 3 * ((k + 1) mod 4) / 12)
    by (Z.div_mod_to_equations; lia).
  assert (Em : ((k mod 4 + 1) * 3) mod 12 = (3 * ((k + 1) mod 4)) mod 12)
    by (Z.div_mod_to_equations; lia).
  rewrite Ey, Em. lia.
Qed.

(** X4: for every clock reading at or after the epoch, on any day of the
    month, the quarterly report has four periods: the calendar quarter of
    [now] and the three before it, oldest first, each labelled
    [Q<n> <year>], opening at midnight of the first day of the quarter and
    closing on the calendar day just before the day on which the next
    quarter opens, the last day of the quarter. *)
Theorem quarterly_four_calendar_quarters (now : Z) :
  0 <= now ->
  Forall2 coversQuarter (generatePeriods "quarterly" now)
    (map (fun i => quarterIndex now - i) [3; 2; 1; 0]).
Proof.
  intros Hnow. rewrite generatePeriods_quarterly. cbn [map].
  repeat constructor; apply quarterlyPeriod_coversQuarter; lia.
Qed.

Lemma quarterly_four_calendar_quarters_witness :
  0 <= mar31 /\
  Forall2 coversQuarter (generatePeriods "quarterly" mar31)
    (map (fun i => quarterIndex mar31 - i) [3; 2; 1; 0]).
Proof.
  assert (H0 : 0 <= mar31) by (vm_compute; discriminate).
  split; [exact H0 |].
  exact (quarterly_four_calendar_quarters mar31 H0).
Defined.

(** *** Yearly *)

Lemma generatePeriods_yearly (now : Z) :
  generatePeriods "yearly" now = map (yearlyPeriod now) [4; 3; 2; 1; 0].
Proof. reflexivity. Qed.

Lemma yearlyPeriod_coversYear (now i : Z) :
  0 <= now -> 0 <= i <= 4 ->
  coversYear (yearlyPeriod now i) (getFullYear now - i).
Proof.
  intros Hnow Hi.
  pose proof (YearFromTime_epoch now Hnow) as HY.
  unfold coversYear, yearlyPeriod, getFullYear, newDate3, newDate7;
    cbn [name startDate endDate].
  set (y := YearFromTime now - i).
  rewrite !fullYearOf_id by (subst y; lia).
  split; [reflexivity | split].
  - unfold MakeDate, MakeDay, MakeTime.
    change (0 / 12) with 0. change (0 mod 12) with 0.
    unfold DayFromMonth; cbn [Z.eqb]. rewrite !Z.add_0_r. lia.
  - unfold MakeDate, MakeDay, MakeTime.
    change (11 / 12) with 0. change (11 mod 12) with 11.
    unfold DayFromMonth; cbn [Z.eqb Pos.eqb].
    rewrite !Z.add_0_r, DayFromYear_step, DaysInYear_leap.
    unfold msPerDay. lia.
Qed.

(** X5: for every clock reading at or after the epoch, the yearly report
    has five periods: the year of [now] and the four before it, oldest
    first, each labelled with its year, opening at midnight of 1 January
    and closing at the midnight that opens 31 December. *)
Theorem yearly_five_calendar_years (now : Z) :
  0 <= now ->
  Forall2 coversYear (generatePeriods "yearly" now)
    (map (fun i => getFullYear now - i) [4; 3; 2; 1; 0]).
Proof.
  intros Hnow. rewrite generatePeriods_yearly. cbn [map].
  repeat constructor; apply yearlyPeriod_coversYear; lia.
Qed.

Lemma yearly_five_calendar_years_witness :
  0 <= mar31 /\
  Forall2 coversYear (generatePeriods "yearly" mar31)
    (map (fun i => getFullYear mar31 - i) [4; 3; 2; 1; 0]).
Proof.
  assert (H0 : 0 <= mar31) by (vm_compute; discriminate).
  split; [exact H0 |].
  exact (yearly_five_calendar_years mar31 H0).
Defined.

(** *** Aggregation *)

Lemma aggregate_pointwise (ds : list Deal) :
  forall ps, aggregate ps ds = map (fun p => aggregateOne p ds) ps.
Proof.
  unfold aggregate, aggregateOne.
  induction ds as [| d ds IH]; intros ps; cbn [fold_left].
  - symmetry. apply map_id.
  - rewrite IH. unfold addDeal.
    destruct (deal_createdAt d) as [t |]; [| reflexivity].
    now rewrite map_map.
Qed.

Lemma dealsIn_bounds (ds : list Deal) (p q : PeriodData) :
  startDate p = startDate q -> endDate p = endDate q ->
  dealsIn ds p = dealsIn ds q.
Proof.
  intros Hs He. unfold dealsIn. apply filter_ext. intros d.
  destruct (deal_createdAt d); [| reflexivity].
  unfold inPeriod. now rewrite Hs, He.
Qed.

Lemma dealsIn_cons (d : Deal) (ds : list Deal) (p : PeriodData) :
  dealsIn (d :: ds) p =
  match deal_createdAt d with
  | Some t => if inPeriod t p then d :: dealsIn ds p else dealsIn ds p
  | None => dealsIn ds p
  end.
Proof. unfold dealsIn; cbn [filter]. now destruct (deal_createdAt d). Qed.

Lemma aggregateOne_spec (ds : list Deal) :
  forall p,
    aggregateOne p ds =
    {| name := name p; startDate := startDate p; endDate := endDate p;
       value := addValues (value p) (dealsIn ds p);
       count := count p + Z.of_nat (List.length (dealsIn ds p)) |}.
Proof.
  unfold aggregateOne.
  induction ds as [| d ds IH]; intros p; cbn [fold_left].
  - destruct p; cbn. f_equal. lia.
  - rewrite IH, dealsIn_cons.
    destruct (deal_createdAt d) as [t |]; [| reflexivity].
    unfold addToPeriod. destruct (inPeriod t p) eqn:E; [| reflexivity].
    cbn [name startDate endDate value count].
    rewrite (dealsIn_bounds ds _ p) by reflexivity.
    cbn [List.length]. unfold addValues; cbn [fold_left]. f_equal. lia.
Qed.

Lemma generatePeriods_fresh (period : string) (now : Z) :
  Forall (fun p => value p = 0%Q /\ count p = 0)
         (generatePeriods period now).
Proof.
  unfold generatePeriods.
  repeat match goal with
  | |- context [if ?b then _ else _] => destruct b
  end; cbn [forDown]; repeat constructor.
Qed.

(** X6: whenever there is at least one deal, the report has one row per
    generated period, in order and under the period's label; the count of
    a row is the number of deals that have a creation date inside the
    closed range of the period, and its value is the sum of the values of
    those deals (a missing value counting as 0), rounded to cents.  Deals
    without a creation date appear in no row. *)
Theorem getSalesByPeriod_rows
    (d : Deal) (ds : list Deal) (period : string) (now : Z) :
  getSalesByPeriod (Some (d :: ds)) period now =
  Normal (map (rowFor (d :: ds)) (generatePeriods period now)).
Proof.
  unfold getSalesByPeriod. f_equal.
  rewrite aggregate_pointwise, map_map.
  apply map_ext_in. intros p Hp.
  pose proof (generatePeriods_fresh period now) as Hf.
  rewrite Forall_forall in Hf. destruct (Hf p Hp) as [Hv Hc].
  rewrite aggregateOne_spec. unfold display, rowFor.
  cbn [name value count]. now rewrite Hv, Hc.
Qed.

(** *** Rounding to cents *)

Lemma Qfloor_half_up (n : Z) (x : Q) :
  (x == inject_Z n + (1 # 2))%Q -> Qfloor x = n.
Proof.
  intros E. rewrite (Qfloor_comp _ _ E).
  unfold Qfloor, Qplus, inject_Z; cbn.
  Z.div_mod_to_equations. lia.
Qed.

Lemma roundCents_Qeq (x y : Q) : (x == y)%Q -> roundCents x = roundCents y.
Proof.
  intros E. unfold roundCents.
  assert (E' : (x * 100 + (1 # 2) == y * 100 + (1 # 2))%Q) by now rewrite E.
  now rewrite (Qfloor_comp _ _ E').
Qed.

Lemma roundCents_cents (n : Z) :
  roundCents (inject_Z n / 100) = Qred (inject_Z n / 100).
Proof.
  unfold roundCents. rewrite (Qfloor_half_up n); [reflexivity |]. field.
Qed.


End PeriodFacts.

(** ** The list queries and the remaining dashboard figures *)

Module StorageQueryFacts.

Import JSDate JSDateFacts JSDateShiftFacts JSNumber JSNumberFacts Schema Clock
  Storage Scenario StorageFacts StorageQueries.

(** *** Ordering *)

Lemma insertAsc_In {A} (key : A -> option Z) (x y : A) (l : list A) :
  In y (insertAsc key x l) <-> y = x \/ In y l.
Proof.
  induction l as [| z l IH]; cbn [insertAsc In].
  - intuition.
  - destruct (ascBefore (key z) (key x)); cbn [In]; rewrite ?IH; intuition.
Qed.

Lemma orderByAsc_In {A} (key : A -> option Z) (y : A) (l : list A) :
  In y (orderByAsc key l) <-> In y l.
Proof.
  unfold orderByAsc. induction l as [| x l IH]; cbn [fold_right In].
  - reflexivity.
  - rewrite insertAsc_In, IH. intuition.
Qed.

Lemma insertAsc_length {A} (key : A -> option Z) (x : A) (l : list A) :
  List.length (insertAsc key x l) = S (List.length l).
Proof.
  induction l as [| z l IH]; cbn [insertAsc List.length]; [reflexivity |].
  destruct (ascBefore (key z) (key x)); cbn [List.length]; now rewrite ?IH.
Qed.

Lemma orderByAsc_length {A} (key : A -> option Z) (l : list A) :
  List.length (orderByAsc key l) = List.length l.
Proof.
  unfold orderByAsc. induction l as [| x l IH]; cbn [fold_right List.length].
  - reflexivity.
  - now rewrite insertAsc_length, IH.
Qed.

Lemma ascBefore_false (a b : option Z) :
  ascBefore a b = false -> ascLe b a.
Proof.
  destruct a as [x |], b as [y |]; cbn; intros H; try discriminate; auto.
  apply Z.ltb_ge in H. exact H.
Qed.

Lemma ascBefore_true (a b : option Z) : ascBefore a b = true -> ascLe a b.
Proof.
  destruct a as [x |], b as [y |]; cbn; intros H; try discriminate; auto.
  apply Z.ltb_lt in H. lia.
Qed.

Lemma ascLe_trans (a b c : option Z) : ascLe a b -> ascLe b c -> ascLe a c.
Proof.
  destruct a, b, c; cbn; intros; try tauto; lia.
Qed.

Lemma insertAsc_sorted {A} (key : A -> option Z) (x : A) (l : list A) :
  StronglySorted (fun a b => ascLe (key a) (key b)) l ->
  StronglySorted (fun a b => ascLe (key a) (key b)) (insertAsc key x l).
Proof.
  induction 1 as [| z l Hs IH Hall]; cbn [insertAsc].
  - repeat constructor.
  - destruct (ascBefore (key z) (key x)) eqn:E.
    + constructor; [exact IH |].
      apply Forall_forall. intros y Hy. apply insertAsc_In in Hy.
      destruct Hy as [-> | Hy]; [now apply ascBefore_true |].
      rewrite Forall_forall in Hall. now apply Hall.
    + apply ascBefore_false in E.
      constructor; [now constructor |].
      constructor; [exact E |].
      revert Hall. apply Forall_impl. intros y Hy.
      eapply ascLe_trans; eassumption.
Qed.

Lemma orderByAsc_sorted {A} (key : A -> option Z) (l : list A) :
  StronglySorted (fun a b => ascLe (key a) (key b)) (orderByAsc key l).
Proof.
  unfold orderByAsc. induction l as [| x l IH]; cbn [fold_right].
  - constructor.
  - now apply insertAsc_sorted.
Qed.

(** *** Tasks due today *)

Lemma tomorrow_is_next_midnight (now : Z) :
  let today := setHours0 now in
  today = Day now * msPerDay /\
  setDate today (getDate today + 1) = (Day now + 1) * msPerDay.
Proof.
  cbv zeta. unfold setHours0, MakeTime, MakeDate.
  split; [lia |]. rewrite setDate_shift. lia.
Qed.

Lemma same_day_iff (now d : Z) :
  Day now * msPerDay <= d < (Day now + 1) * msPerDay <-> Day d = Day now.
Proof.
  unfold Day, msPerDay. split; intros H; Z.div_mod_to_equations; lia.
Qed.

Lemma dueOpenTask_iff (now : Z) (t : Task) :
  let today := setHours0 now in
  holds (dueOpenTask today (setDate today (getDate today + 1)) t) = true <->
  dueOnDayOf now t.
Proof.
  cbv zeta. destruct (tomorrow_is_next_midnight now) as [E1 E2].
  cbv zeta in E1, E2. rewrite E2, E1. clear E1 E2.
  unfold dueOpenTask, dueOnDayOf.
  destruct (task_dueDate t) as [due |], (task_status t) as [status |];
    cbn [sqlGte sqlLt sqlEq sqlNot sqlAnd option_map holds].
  - destruct (Z.leb_spec (Day now * msPerDay) due) as [Ea | Ea];
      destruct (Z.ltb_spec due ((Day now + 1) * msPerDay)) as [Eb | Eb];
      destruct (String.eqb_spec status "completed") as [Ec | Ec];
      destruct (String.eqb_spec status "cancelled") as [Ed | Ed];
      cbn [negb holds sqlAnd];
      (split;
       [ intros H; try discriminate H;
         exists due, status; repeat split; auto;
         apply same_day_iff; lia
       | intros (due' & status' & Hd & Hday & Hs & Hc & Hx);
         injection Hd as <-; injection Hs as <-;
         try reflexivity; try contradiction;
         apply same_day_iff in Hday; lia ]).
  - split; [| intros (due' & status' & _ & _ & Hs & _); discriminate].
    destruct (Day now * msPerDay <=? due), (due <? (Day now + 1) * msPerDay);
      intros H; cbn in H; discriminate H.
  - split; [| intros (due' & status' & Hd & _); discriminate Hd].
    destruct (String.eqb status "completed"), (String.eqb status "cancelled");
      intros H; cbn in H; discriminate H.
  - split; [intros H; cbn in H; discriminate H
           | intros (due' & status' & Hd & _); discriminate Hd].
Qed.

(** X8: [getTasksDueToday] reads the clock once and returns, in
    ascending order of due date, exactly the tasks of the store whose due
    date falls on the calendar day of that reading and whose status is
    present and neither completed nor cancelled; a task without due date
    or without status is never returned. *)
Theorem getTasksDueToday_same_day (db : Store) (clk : readings) (n : nat) :
  let result := fst (getTasksDueToday db clk n) in
  snd (getTasksDueToday db clk n) = S n /\
  (forall t, In t result <-> In t (tasks db) /\ dueOnDayOf (clk n) t) /\
  StronglySorted (fun a b => ascLe (task_dueDate a) (task_dueDate b)) result.
Proof.
  cbv zeta. unfold getTasksDueToday, bind, newDate, ret; cbn [fst snd].
  split; [reflexivity | split].
  - intros t. rewrite orderByAsc_In, filter_In.
    now rewrite (dueOpenTask_iff (clk n) t).
  - apply orderByAsc_sorted.
Qed.

(** X9: the two dashboard counters agree with the list queries taken at
    the same readings: [tasksDueToday] is the number of tasks
    [getTasksDueToday] returns at the second reading of
    [getDashboardStats], and [upcomingMeetings] the number of meetings
    [getUpcomingMeetings] returns at its first reading. *)
Theorem dashboard_counters_match_queries
    (db : Store) (clk : readings) (n : nat) :
  tasksDueToday (fst (getDashboardStats db clk n)) =
    Z.of_nat (List.length (fst (getTasksDueToday db clk (S n)))) /\
  upcomingMeetings (fst (getDashboardStats db clk n)) =
    Z.of_nat (List.length (fst (getUpcomingMeetings db clk n))).
Proof.
  unfold getTasksDueToday, getUpcomingMeetings, getDashboardStats, bind,
    newDate, ret; cbn [fst tasksDueToday upcomingMeetings].
  rewrite !orderByAsc_length, !orZeroInt_id. split; reflexivity.
Qed.

(** X10: [getUpcomingMeetings] returns, in ascending order of start
    time, exactly the meetings whose status is [scheduled] and whose start
    time is at or after the reading of the clock. *)
Theorem getUpcomingMeetings_from_now
    (db : Store) (clk : readings) (n : nat) :
  let result := fst (getUpcomingMeetings db clk n) in
  (forall m, In m result <->
             In m (meetings db) /\
             meeting_status m = Some "scheduled"%string /\
             exists start, meeting_startTime m = Some start /\ clk n <= start) /\
  StronglySorted
    (fun a b => ascLe (meeting_startTime a) (meeting_startTime b)) result.
Proof.
  cbv zeta. unfold getUpcomingMeetings, bind, newDate, ret; cbn [fst].
  split; [| apply orderByAsc_sorted].
  intros m. rewrite orderByAsc_In, filter_In.
  apply and_iff_compat_l.
  destruct (meeting_startTime m) as [start |], (meeting_status m) as [st |];
    cbn [sqlGte sqlEq sqlAnd option_map].
  - destruct (Z.leb_spec (clk n) start) as [Ea | Ea];
      destruct (String.eqb_spec st "scheduled") as [Eb | Eb]; cbn [holds];
      (split;
       [ intros H;
         first [ discriminate H
               | split; [congruence
                        | exists start; split; [reflexivity | lia]] ]
       | intros [Hs (start' & Hst & Hle)]; try reflexivity; exfalso;
         first [congruence | injection Hst as Hst; lia] ]).
  - split; [| intros [Hs _]; discriminate].
    destruct (clk n <=? start); intros H; cbn in H; discriminate H.
  - split; [| intros [_ (start' & Hst & _)]; discriminate Hst].
    destruct (String.eqb st "scheduled"); intros H; cbn in H; discriminate H.
  - split; [intros H; cbn in H; discriminate H
           | intros [Hs _]; discriminate Hs].
Qed.

End StorageQueryFacts.

(** ** Ranges of the dashboard figures *)

Module DashboardRangeFacts.

Import JSDate JSDateFacts JSDateShiftFacts JSNumber JSNumberFacts Schema Clock
  Storage Scenario StorageFacts StorageQueries.

Local Open Scope Q_scope.

Lemma isNegative_false (q : Q) : 0 <= q -> isNegative q = false.
Proof.
  unfold Qle, isNegative; cbn. intros H. apply Z.ltb_ge. lia.
Qed.

Lemma isNegative_true (q : Q) : isNegative q = true -> q < 0.
Proof.
  unfold Qlt, isNegative; cbn. intros H. apply Z.ltb_lt in H. lia.
Qed.

Lemma inject_Z_le_half (n m : Z) :
  inject_Z n <= inject_Z m + (1 # 2) -> (n <= m)%Z.
Proof. unfold Qle, Qplus, inject_Z; cbn. lia. Qed.

(** The tenths [n] that [toFixed 1] rounds [|q|] to. *)
Lemma toFixed1_tenths (q : Q) :
  exists n : Z,
    (0 <= n)%Z /\
    inject_Z n <= Qabs q * 10 + (1 # 2) /\
    toFixed 1 (Num q) =
    Num (Qred (if isNegative q then - (inject_Z n / 10) else inject_Z n / 10)).
Proof.
  exists (Qfloor (Qabs q * inject_Z (10 ^ 1) + (1 # 2))).
  change (inject_Z (10 ^ 1)) with 10.
  repeat split.
  - change 0%Z with (Qfloor 0). apply Qfloor_resp_le.
    pose proof (Qabs_nonneg q). lra.
  - apply Qfloor_le.
Qed.

Lemma toFixed1_within_0_100 (q : Q) :
  0 <= q -> q <= 100 -> within 0 100 (toFixed 1 (Num q)).
Proof.
  intros H0 H100.
  destruct (toFixed1_tenths q) as (n & Hn & Hle & ->).
  rewrite (isNegative_false q H0).
  rewrite (Qabs_pos q H0) in Hle.
  assert (Hn' : (n <= 1000)%Z).
  { apply inject_Z_le_half. change (inject_Z 1000) with 1000. lra. }
  eexists; split; [reflexivity |].
  rewrite Qred_correct.
  rewrite Zle_Qle in Hn, Hn'.
  change (inject_Z 0) with 0 in Hn. change (inject_Z 1000) with 1000 in Hn'.
  set (z := inject_Z n) in *. clearbody z.
  assert (E : z / 10 == z * (1 # 10)) by (unfold Qdiv; reflexivity).
  rewrite E. split; lra.
Qed.

Lemma toFixed1_at_least_minus_100 (q : Q) :
  -100 <= q -> exists r, toFixed 1 (Num q) = Num r /\ -100 <= r.
Proof.
  intros Hq.
  destruct (toFixed1_tenths q) as (n & Hn & Hle & ->).
  eexists; split; [reflexivity |]. rewrite Qred_correct.
  rewrite Zle_Qle in Hn. change (inject_Z 0) with 0 in Hn.
  destruct (isNegative q) eqn:E.
  - apply isNegative_true in E.
    rewrite (Qabs_neg q) in Hle by lra.
    assert (Hn' : (n <= 1000)%Z).
    { apply inject_Z_le_half. change (inject_Z 1000) with 1000. lra. }
    rewrite Zle_Qle in Hn'. change (inject_Z 1000) with 1000 in Hn'.
    set (z := inject_Z n) in *. clearbody z.
    assert (Ez : z / 10 == z * (1 # 10)) by (unfold Qdiv; reflexivity).
    rewrite Ez. lra.
  - set (z := inject_Z n) in *. clearbody z.
    assert (Ez : z / 10 == z * (1 # 10)) by (unfold Qdiv; reflexivity).
    rewrite Ez. lra.
Qed.

Lemma inject_Z_pos (d : Z) : (0 < d)%Z -> 0 < inject_Z d.
Proof. intros H. rewrite Zlt_Qlt in H. exact H. Qed.

(** A part of a non-empty whole, as a percentage. *)
Lemma percentOf_within (part whole : Z) :
  (0 <= part <= whole)%Z ->
  within 0 100 (toFixed 1 (percentOf (ofInt part) whole)).
Proof.
  intros [H0 H1]. unfold percentOf.
  destruct (whole =? 0)%Z eqn:E.
  - exists 0. split; [reflexivity | split; lra].
  - apply Z.eqb_neq in E. unfold div, mul, ofInt.
    rewrite Qeq_bool_inject_Z.
    destruct (whole =? 0)%Z eqn:E'; [apply Z.eqb_eq in E'; contradiction |].
    assert (Hw : 0 < inject_Z whole) by (apply inject_Z_pos; lia).
    rewrite Zle_Qle in H0, H1. change (inject_Z 0) with 0 in H0.
    assert (Hlo : 0 <= inject_Z part / inject_Z whole)
      by (apply Qle_shift_div_l; [exact Hw | lra]).
    assert (Hhi : inject_Z part / inject_Z whole <= 1)
      by (apply Qle_shift_div_r; [exact Hw | lra]).
    apply toFixed1_within_0_100; rewrite !Qred_correct;
      change (inject_Z 100) with 100; lra.
Qed.

(** A change against a non-empty baseline is at least -100 percent. *)
Lemma monthOverMonth_at_least_minus_100 (current previous : Z) :
  (0 <= current)%Z -> (0 <= previous)%Z ->
  exists r, toFixed 1 (monthOverMonth current previous) = Num r /\ -100 <= r.
Proof.
  intros Hc Hp. unfold monthOverMonth.
  destruct (previous =? 0)%Z eqn:E.
  - exists 0. split; [reflexivity | lra].
  - apply Z.eqb_neq in E. unfold sub, div, mul, ofInt.
    rewrite Qeq_bool_inject_Z.
    destruct (previous =? 0)%Z eqn:E'; [apply Z.eqb_eq in E'; contradiction |].
    assert (Hw : 0 < inject_Z previous) by (apply inject_Z_pos; lia).
    rewrite Zle_Qle in Hc. change (inject_Z 0) with 0 in Hc.
    assert (Hlo : -1 <= (inject_Z current - inject_Z previous)
                        / inject_Z previous)
      by (apply Qle_shift_div_l; [exact Hw | lra]).
    apply toFixed1_at_least_minus_100. rewrite !Qred_correct.
    change (inject_Z 100) with 100. lra.
Qed.

Lemma countWhere_range {A} (cond : A -> option bool) (rows : list A) :
  (0 <= countWhere cond rows <= countAll rows)%Z.
Proof.
  unfold countWhere, countAll.
  pose proof (filter_length_le (fun r => holds (cond r)) rows). lia.
Qed.

Lemma toFixed_finite (digits : Z) (x : number) :
  finite x -> finite (toFixed digits x).
Proof. intros [q ->]. unfold finite, toFixed. eexists; reflexivity. Qed.

Lemma orZero_finite (q : Q) : finite (orZero (Num q)).
Proof.
  unfold finite, orZero. destruct (Qeq_bool q 0); eexists; reflexivity.
Qed.

Lemma div_finite (x : number) (d : Z) :
  finite x -> d <> 0%Z -> finite (div x (ofInt d)).
Proof.
  intros [q ->] Hd. unfold finite, div, ofInt.
  rewrite Qeq_bool_inject_Z.
  destruct (d =? 0)%Z eqn:E; [apply Z.eqb_eq in E; contradiction |].
  eexists; reflexivity.
Qed.

Ltac dashboard_field :=
  unfold getDashboardStats, bind, newDate, ret;
  cbn [fst customerGrowth dealChange meetingChange taskCompletion totalSales
       avgDealSize winRate customerRetentionRate];
  rewrite ?orZeroInt_id.

(** X11: the percentages of the dashboard stay in range for every store
    and every clock: [winRate] and [taskCompletion] are finite numbers
    between 0 and 100, and [customerGrowth], [dealChange] and
    [meetingChange] are finite numbers not below -100. *)
Theorem dashboard_percentages_in_range
    (db : Store) (clk : readings) (n : nat) :
  let s := fst (getDashboardStats db clk n) in
  within 0 100 (winRate s) /\
  within 0 100 (taskCompletion s) /\
  (exists r, customerGrowth s = Num r /\ -100 <= r) /\
  (exists r, dealChange s = Num r /\ -100 <= r) /\
  (exists r, meetingChange s = Num r /\ -100 <= r).
Proof.
  cbv zeta. repeat split.
  - dashboard_field. apply percentOf_within. apply countWhere_range.
  - dashboard_field. apply percentOf_within. apply countWhere_range.
  - dashboard_field.
    apply monthOverMonth_at_least_minus_100; apply countWhere_range.
  - dashboard_field.
    apply monthOverMonth_at_least_minus_100; apply countWhere_range.
  - dashboard_field.
    apply monthOverMonth_at_least_minus_100; apply countWhere_range.
Qed.

(** X12: no figure of the dashboard is ever [NaN] or an infinity: for
    every store, empty tables included, and every clock, the eight
    computed ratios and amounts are finite numbers. *)
Theorem dashboard_figures_finite (db : Store) (clk : readings) (n : nat) :
  let s := fst (getDashboardStats db clk n) in
  finite (customerGrowth s) /\ finite (dealChange s) /\
  finite (meetingChange s) /\ finite (taskCompletion s) /\
  finite (totalSales s) /\ finite (avgDealSize s) /\
  finite (winRate s) /\ finite (customerRetentionRate s).
Proof.
  cbv zeta.
  assert (Hmom : forall c p, (0 <= c)%Z -> (0 <= p)%Z ->
                 finite (toFixed 1 (monthOverMonth c p))).
  { intros c p Hc Hp.
    destruct (monthOverMonth_at_least_minus_100 c p Hc Hp) as (r & -> & _).
    now exists r. }
  assert (Hpct : forall a b, (0 <= a <= b)%Z ->
                 finite (toFixed 1 (percentOf (ofInt a) b))).
  { intros a b Hab.
    destruct (percentOf_within a b Hab) as (r & -> & _). now exists r. }
  repeat split.
  - dashboard_field. apply Hmom; apply countWhere_range.
  - dashboard_field. apply Hmom; apply countWhere_range.
  - dashboard_field. apply Hmom; apply countWhere_range.
  - dashboard_field. apply Hpct. apply countWhere_range.
  - dashboard_field. apply toFixed_finite, orZero_finite.
  - dashboard_field. apply toFixed_finite.
    destruct (countAll (deals db) =? 0)%Z eqn:E.
    + now exists 0.
    + apply Z.eqb_neq in E. apply div_finite; [apply orZero_finite | exact E].
  - dashboard_field. apply Hpct. apply countWhere_range.
  - dashboard_field. apply toFixed_finite.
    match goal with |- context [(?d =? 0)%Z] => destruct (d =? 0)%Z eqn:E end.
    + now exists 0.
    + apply Z.eqb_neq in E. unfold sub, ofInt at 1 2, mul.
      destruct (div_finite (Num (Qred (inject_Z (countAll (customers db)) -
                  inject_Z (countWhere
                     (fun c => sqlGte (customer_createdAt c)
                                 (firstDayCurrentMonthOf (clk n)))
                     (customers db)))))
                  _ ltac:(eexists; reflexivity) E) as [q ->].
      unfold ofInt. eexists; reflexivity.
Qed.

End DashboardRangeFacts.

(** ** The month windows of the dashboard *)

Module MonthWindowFacts.

Import JSDate JSDateFacts JSDateShiftFacts Schema Clock Storage Scenario
  SalesByPeriodFacts PeriodVocabulary PeriodFacts.

(** X13: for a clock reading [now] at or after the epoch, the
    current-month window of [getDashboardStats] opens at midnight of the
    first day of the month of [now], which is not after [now]; the
    previous-month window opens at midnight of the first day of the month
    before, and closes on the calendar day just before the one on which
    the current-month window opens, hence before it opens, so that no row
    is counted in both windows. *)
Theorem dashboard_month_windows (now : Z) :
  0 <= now ->
  let first := firstDayCurrentMonthOf now in
  let previous := firstDayPreviousMonthOf now in
  let last := lastDayPreviousMonthOf now in
  (getFullYear first = getFullYear now /\ getMonth first = getMonth now /\
   getDate first = 1 /\ TimeWithinDay first = 0) /\
  first <= now /\
  (calendarDay last + 1 = calendarDay first /\ last < first) /\
  (getFullYear previous = (monthIndex now - 1) / 12 /\
   getMonth previous = (monthIndex now - 1) mod 12 /\
   getDate previous = 1 /\ TimeWithinDay previous = 0).
Proof.
  intros Hnow. cbv zeta.
  pose proof (YearFromTime_epoch now Hnow) as HY.
  pose proof (MonthFromTime_range now) as HM.
  pose proof (DateFromTime_pos now) as HD.
  unfold firstDayCurrentMonthOf, firstDayPreviousMonthOf,
    lastDayPreviousMonthOf, monthIndex, newDate3, newDate7,
    getFullYear, getMonth, getDate.
  rewrite !fullYearOf_id by lia.
  set (Y := YearFromTime now) in *. set (M := MonthFromTime now) in *.
  destruct (MakeDay_roundtrip Y M 1 (MakeTime 0 0 0 0)
              ltac:(lia) MakeTime_zero_range) as (Fy & Fm & Fd).
  destruct (MakeDay_roundtrip Y (M - 1) 1 (MakeTime 0 0 0 0)
              ltac:(lia) MakeTime_zero_range) as (Py & Pm & Pd).
  rewrite Fy, Fm, Fd, Py, Pm, Pd.
  rewrite !TimeWithinDay_MakeDate by exact MakeTime_zero_range.
  rewrite (Z.div_small M 12), (Z.mod_small M 12) by lia.
  repeat split; try reflexivity; try lia.
  - pose proof (MakeDay_of_time now) as Hday. fold Y M in Hday.
    pose proof (MakeDay_date_shift Y M 1 (DateFromTime now - 1)) as Hs.
    replace (1 + (DateFromTime now - 1)) with (DateFromTime now) in Hs by lia.
    pose proof (MakeDate_Day now) as Hnow'.
    pose proof (TimeWithinDay_range now) as Ht.
    unfold MakeDate, MakeTime, msPerDay in *. lia.
  - rewrite !calendarDay_Day, !Day_MakeDate by exact MakeTime_zero_range.
    unfold MakeDay. lia.
  - unfold MakeDate, MakeDay, MakeTime, msPerDay. lia.
  - Z.div_mod_to_equations; lia.
  - Z.div_mod_to_equations; lia.
Qed.

Lemma dashboard_month_windows_witness :
  0 <= feb15 /\
  (let first := firstDayCurrentMonthOf feb15 in
   let previous := firstDayPreviousMonthOf feb15 in
   let last := lastDayPreviousMonthOf feb15 in
   (getFullYear first = getFullYear feb15 /\ getMonth first = getMonth feb15 /\
    getDate first = 1 /\ TimeWithinDay first = 0) /\
   first <= feb15 /\
   (calendarDay last + 1 = calendarDay first /\ last < first) /\
   (getFullYear previous = (monthIndex feb15 - 1) / 12 /\
    getMonth previous = (monthIndex feb15 - 1) mod 12 /\
    getDate previous = 1 /\ TimeWithinDay previous = 0)).
Proof.
  assert (H0 : 0 <= feb15) by (vm_compute; discriminate).
  split; [exact H0 |].
  exact (dashboard_month_windows feb15 H0).
Defined.

End MonthWindowFacts.

(** ** The charts fed by the stage rows *)

Module DealChartFacts.

Import JSNumber JSNumberFacts JSNumberOps Schema Storage Scenario StorageFacts
  StorageQueries DealCharts.

Local Open Scope Q_scope.

(** *** Shares of a total *)

Lemma round_within_0_100 (q : Q) :
  0 <= q -> q <= 100 -> within 0 100 (round (Num q)).
Proof.
  intros H0 H100. unfold round. eexists; split; [reflexivity |].
  assert (Hlo : (Qfloor 0 <= Qfloor (q + (1 # 2)))%Z)
    by (apply Qfloor_resp_le; lra).
  assert (Hhi : (Qfloor (q + (1 # 2)) <= Qfloor (100 + (1 # 2)))%Z)
    by (apply Qfloor_resp_le; lra).
  change (Qfloor 0) with 0%Z in Hlo.
  change (Qfloor (100 + (1 # 2))) with 100%Z in Hhi.
  rewrite Zle_Qle in Hlo, Hhi. split; assumption.
Qed.

(** The rounded percentage of a part in a positive total. *)
Lemma share_within_0_100 (part total : Q) :
  0 <= part -> part <= total -> 0 < total ->
  within 0 100 (round (mul (div (Num part) (Num total)) (ofInt 100))).
Proof.
  intros H0 Hle Hpos. unfold div, mul, ofInt.
  destruct (Qeq_bool total 0) eqn:E;
    [apply Qeq_bool_eq in E; lra |].
  assert (Hlo : 0 <= part / total)
    by (apply Qle_shift_div_l; [exact Hpos | lra]).
  assert (Hhi : part / total <= 1)
    by (apply Qle_shift_div_r; [exact Hpos | lra]).
  apply round_within_0_100; rewrite !Qred_correct;
    change (inject_Z 100) with 100; lra.
Qed.

(** The running sum of non-negative measures is a finite number that
    bounds every measure added. *)
Lemma fold_add_bounds (f : StageRow -> number) (rows : list StageRow) :
  Forall (fun r => nonNegative (f r)) rows ->
  forall a, 0 <= a ->
  exists total,
    fold_left (fun sum st => add sum (f st)) rows (Num a) = Num total /\
    a <= total /\
    Forall (fun r => exists q, f r = Num q /\ 0 <= q /\ q <= total) rows.
Proof.
  induction 1 as [| r rows (q & Hq & Hq0) _ IH]; intros a Ha; cbn [fold_left].
  - exists a. repeat split; [lra | constructor].
  - rewrite Hq. cbn [add].
    destruct (IH (Qred (a + q))) as (total & Ht & Hat & Hall).
    { rewrite Qred_correct. lra. }
    rewrite Qred_correct in Hat.
    exists total. repeat split; [exact Ht | lra |].
    constructor; [| exact Hall].
    exists q. repeat split; [exact Hq | exact Hq0 | lra].
Qed.

(** *** What [getDealsByStage] hands to the charts *)

Lemma getDealsByStage_positive (db : Store) :
  Forall (fun r => (1 <= count r)%Z) (getDealsByStage db).
Proof.
  destruct (fold_addToGroups (deals db) [] (Forall_nil _)) as [Hpos _].
  cbv zeta in Hpos. unfold getDealsByStage, groupByStage.
  apply Forall_map. revert Hpos. apply Forall_impl.
  intros g Hg. cbn [count]. now rewrite orZeroInt_id.
Qed.

Lemma filter_all {A} (f : A -> bool) (l : list A) :
  Forall (fun x => f x = true) l -> filter f l = l.
Proof.
  induction 1 as [| x l Hx _ IH]; cbn [filter]; [reflexivity |].
  now rewrite Hx, IH.
Qed.

Lemma map_mapIndexed {A B C} (g : B -> C) (f : nat -> A -> B) (h : A -> C)
    (xs : list A) :
  (forall i x, g (f i x) = h x) ->
  forall i, map g (mapIndexed f i xs) = map h xs.
Proof.
  intros H. induction xs as [| x xs IH]; intros i; cbn [mapIndexed map].
  - reflexivity.
  - now rewrite H, IH.
Qed.

Lemma Forall_mapIndexed {A B} (P : B -> Prop) (f : nat -> A -> B)
    (xs : list A) :
  Forall (fun x => forall i, P (f i x)) xs ->
  forall i, Forall P (mapIndexed f i xs).
Proof.
  induction 1 as [| x xs Hx _ IH]; intros i; cbn [mapIndexed];
    constructor; auto.
Qed.

Lemma ofInt_nonNegative (n : Z) : (0 <= n)%Z -> nonNegative (ofInt n).
Proof.
  intros H. exists (inject_Z n). split; [reflexivity |].
  rewrite Zle_Qle in H. exact H.
Qed.

(** X14: fed with the rows of [getDealsByStage], the "By Count" tab of
    the distribution chart shows every row (none is filtered out), with
    the row's count as value and a percentage that is a finite number
    between 0 and 100. *)
Theorem processData_count_slices (db : Store) :
  let slices := processData (Some (getDealsByStage db)) ByCount in
  map slice_value slices =
    map (fun r => ofInt (count r)) (getDealsByStage db) /\
  Forall (fun s => within 0 100 (percentage s)) slices.
Proof.
  cbv zeta.
  pose proof (getDealsByStage_positive db) as Hpos.
  destruct (getDealsByStage db) as [| r rows] eqn:Erows.
  - split; [reflexivity | constructor].
  - unfold processData.
    rewrite (filter_all (fun st => (0 <? count st)%Z) (r :: rows)).
    2:{ revert Hpos. apply Forall_impl. intros x Hx. apply Z.ltb_lt. lia. }
    destruct (fold_add_bounds (measure ByCount) (r :: rows)) with (a := 0)
      as (total & Ht & H0 & Hall); [| lra |].
    { revert Hpos. apply Forall_impl. intros x Hx.
      apply ofInt_nonNegative. lia. }
    rewrite Ht. split.
    + now apply map_mapIndexed.
    + apply Forall_mapIndexed.
      assert (Htot : 0 < total).
      { inversion Hall as [| ? ? (q & Hq & _ & Hqt) _]; subst.
        inversion Hpos as [| ? ? Hr _]; subst.
        cbn [measure] in Hq. injection Hq as <-.
        rewrite Zle_Qle in Hr. change (inject_Z 1) with 1 in Hr. lra. }
      revert Hall. apply Forall_impl.
      intros x (q & Hq & Hq0 & Hqt) i. cbn [percentage]. rewrite Hq.
      now apply share_within_0_100.
Qed.

(** *** When no deal carries a value *)

Lemma sqlAdd_nothing (acc v : option Q) :
  match acc with None => True | Some q => q == 0 end ->
  match v with None => True | Some q => q == 0 end ->
  match sqlAdd acc v with None => True | Some q => q == 0 end.
Proof.
  destruct acc as [a |], v as [b |]; cbn; auto. intros Ha Hb. lra.
Qed.

Lemma addToGroups_nothing (d : Deal) (gs : list StageGroup) :
  worthNothing d ->
  Forall (fun g => match group_sum g with None => True | Some q => q == 0 end)
         gs ->
  Forall (fun g => match group_sum g with None => True | Some q => q == 0 end)
         (addToGroups d gs).
Proof.
  intros Hd. induction 1 as [| g gs Hg Hgs IH]; cbn [addToGroups].
  - repeat constructor. exact Hd.
  - destruct (String.eqb (group_stage g) (deal_stage d)).
    + constructor; [| exact Hgs]. cbn [group_sum].
      now apply sqlAdd_nothing.
    + constructor; assumption.
Qed.

Lemma groupByStage_nothing (ds : list Deal) :
  Forall worthNothing ds ->
  Forall (fun g => match group_sum g with None => True | Some q => q == 0 end)
         (groupByStage ds).
Proof.
  unfold groupByStage. intros Hds.
  assert (H : forall gs,
            Forall (fun g => match group_sum g with
                             | None => True | Some q => q == 0 end) gs ->
            Forall (fun g => match group_sum g with
                             | None => True | Some q => q == 0 end)
                   (fold_left (fun acc d => addToGroups d acc) ds gs)).
  { induction Hds as [| d ds Hd _ IH]; intros gs Hgs; cbn [fold_left]; auto.
    apply IH. now apply addToGroups_nothing. }
  apply H. constructor.
Qed.

Lemma getDealsByStage_nothing (db : Store) :
  Forall worthNothing (deals db) ->
  Forall (fun r => totalValue r = Num 0) (getDealsByStage db).
Proof.
  intros H. unfold getDealsByStage. apply Forall_map.
  pose proof (groupByStage_nothing (deals db) H) as Hg.
  revert Hg. apply Forall_impl. intros g Hg. cbn [totalValue].
  unfold orZero, coalesce0. destruct (group_sum g) as [q |].
  - now rewrite (Qeq_eq_bool q 0 Hg).
  - reflexivity.
Qed.

Lemma fold_add_zero (rows : list StageRow) :
  Forall (fun r => totalValue r = Num 0) rows ->
  fold_left (fun sum st => add sum (totalValue st)) rows (Num 0) = Num 0.
Proof.
  induction 1 as [| r rows Hr _ IH]; cbn [fold_left]; [reflexivity |].
  rewrite Hr. exact IH.
Qed.

Lemma Forall_filter {A} (P : A -> Prop) (f : A -> bool) (l : list A) :
  Forall P l -> Forall P (filter f l).
Proof.
  induction 1 as [| x l Hx _ IH]; cbn [filter]; [constructor |].
  destruct (f x); [constructor |]; assumption.
Qed.

(** X15: when no deal of the store carries a value, every percentage of
    the "By Value" tab of the distribution chart is [NaN] (the division by
    the zero total is not guarded there), whereas every bar of the
    pipeline card has percentage 0 (its division is guarded by
    [totalDealValue > 0]). *)
Theorem charts_when_no_deal_has_value (db : Store) :
  Forall worthNothing (deals db) ->
  Forall (fun s => percentage s = NaN)
         (processData (Some (getDealsByStage db)) ByValue) /\
  Forall (fun p => p = Num 0) (barPercentages (Some (getDealsByStage db))).
Proof.
  intros H. pose proof (getDealsByStage_nothing db H) as Hrows.
  set (rows := getDealsByStage db) in *. clearbody rows. split.
  - unfold processData. destruct rows as [| r rows]; [constructor |].
    pose proof (Forall_filter _ (fun st => (0 <? count st)%Z) _ Hrows) as Hf.
    cbn [measure]. rewrite (fold_add_zero _ Hf).
    apply Forall_mapIndexed. revert Hf. apply Forall_impl.
    intros x Hx i. cbn [percentage]. now rewrite Hx.
  - unfold barPercentages, barPercentage, totalDealValue.
    rewrite (fold_add_zero _ Hrows). cbn [orZero isPositive].
    apply Forall_map. apply Forall_forall. intros x _. reflexivity.
Qed.

Lemma charts_when_no_deal_has_value_witness :
  let db := {| customers := [];
               deals := [{| deal_stage := "lead"; deal_value := None;
                            deal_createdAt := None |}];
               tasks := []; meetings := [] |} in
  Forall worthNothing (deals db) /\
  Forall (fun s => percentage s = NaN)
         (processData (Some (getDealsByStage db)) ByValue) /\
  Forall (fun p => p = Num 0) (barPercentages (Some (getDealsByStage db))).
Proof.
  cbv zeta.
  assert (H : Forall worthNothing
                [{| deal_stage := "lead"; deal_value := None;
                    deal_createdAt := None |}])
    by (repeat constructor).
  split; [exact H |].
  exact (charts_when_no_deal_has_value
           {| customers := [];
              deals := [{| deal_stage := "lead"; deal_value := None;
                           deal_createdAt := None |}];
              tasks := []; meetings := [] |} H).
Defined.

(** X16: for stage rows whose totals are finite and not negative, every
    bar of the pipeline card has a percentage that is a finite number
    between 0 and 100. *)
Theorem barPercentages_within (rows : list StageRow) :
  Forall (fun r => nonNegative (totalValue r)) rows ->
  Forall (within 0 100) (barPercentages (Some rows)).
Proof.
  intros H. unfold barPercentages, barPercentage, totalDealValue.
  destruct (fold_add_bounds totalValue rows H 0 ltac:(lra))
    as (total & -> & H0 & Hall).
  apply Forall_map. revert Hall. apply Forall_impl.
  intros r (q & Hq & Hq0 & Hqt).
  unfold orZero. destruct (Qeq_bool total 0) eqn:E.
  - cbn [isPositive Qle_bool]. exists 0. split; [reflexivity | split; lra].
  - unfold isPositive. destruct (Qle_bool total 0) eqn:E'; cbn [negb].
    + exists 0. split; [reflexivity | split; lra].
    + rewrite Hq. apply share_within_0_100; auto.
      apply Qeq_bool_neq in E.
      destruct (Qlt_le_dec 0 total) as [Hlt | Hle]; [exact Hlt |].
      exfalso. apply E. lra.
Qed.

Lemma barPercentages_within_witness :
  let rows := [{| stage := "lead"; count := 2; totalValue := Num 300 |};
               {| stage := "proposal"; count := 1; totalValue := Num 100 |}] in
  Forall (fun r => nonNegative (totalValue r)) rows /\
  Forall (within 0 100) (barPercentages (Some rows)).
Proof.
  cbv zeta.
  assert (H : Forall (fun r => nonNegative (totalValue r))
                [{| stage := "lead"; count := 2; totalValue := Num 300 |};
                 {| stage := "proposal"; count := 1;
                    totalValue := Num 100 |}]).
  { repeat constructor; eexists; (split; [reflexivity | lra]). }
  split; [exact H |].
  exact (barPercentages_within _ H).
Defined.

End DealChartFacts.

(** ** The task completion chart *)

Module TaskChartFacts.

Import JSNumber JSNumberFacts JSNumberOps Schema StorageQueries DealChartFacts
  TaskChart.

Lemma getCount_setCount (key k : string) (v : Z) (m : list (string * Z)) :
  getCount k (setCount key v m) =
  if String.eqb key k then v else getCount k m.
Proof.
  induction m as [| [k0 w] m IH]; cbn [setCount getCount].
  - destruct (String.eqb key k); reflexivity.
  - destruct (String.eqb_spec k0 key) as [-> | Hne]; cbn [getCount].
    + destruct (String.eqb key k); reflexivity.
    + rewrite IH.
      destruct (String.eqb_spec k0 k) as [-> | Hk];
        destruct (String.eqb_spec key k) as [-> | Hk']; congruence.
Qed.

Lemma tasksWithStatus_cons (k : string) (t : Task) (ts : list Task) :
  tasksWithStatus k (t :: ts) =
  (if String.eqb (statusOf t) k then 1 else 0) + tasksWithStatus k ts.
Proof.
  unfold tasksWithStatus; cbn [filter].
  destruct (String.eqb (statusOf t) k); cbn [List.length]; lia.
Qed.

(** After the counting loop, the counter of each status holds what it
    held before plus the number of tasks with that status. *)
Lemma counting_loop (k : string) (ts : list Task) :
  forall m,
    getCount k
      (fold_left
         (fun counts task =>
            let status := statusOf task in
            setCount status (getCount status counts + 1) counts) ts m) =
    getCount k m + tasksWithStatus k ts.
Proof.
  induction ts as [| t ts IH]; intros m; cbn [fold_left].
  - unfold tasksWithStatus; cbn. lia.
  - rewrite IH, tasksWithStatus_cons. cbv zeta. rewrite getCount_setCount.
    destruct (String.eqb_spec (statusOf t) k) as [-> | Hne]; lia.
Qed.

Lemma tasksWithStatus_nonneg (k : string) (ts : list Task) :
  0 <= tasksWithStatus k ts.
Proof. unfold tasksWithStatus. lia. Qed.

Lemma totalTasks_from (data : list TaskSlice) :
  forall acc,
    fold_left (fun sum item => sum + slice_value item) data acc =
    acc + totalTasks data.
Proof.
  unfold totalTasks.
  induction data as [| item data IH]; intros acc; cbn [fold_left]; [lia |].
  rewrite IH, (IH (0 + slice_value item)). lia.
Qed.

Lemma totalTasks_cons (item : TaskSlice) (data : list TaskSlice) :
  totalTasks (item :: data) = slice_value item + totalTasks data.
Proof.
  unfold totalTasks at 1; cbn [fold_left]. rewrite totalTasks_from. lia.
Qed.

(** Dropping the empty slices does not change the total. *)
Lemma totalTasks_filter (data : list TaskSlice) :
  Forall (fun item => 0 <= slice_value item) data ->
  totalTasks (filter (fun item => 0 <? slice_value item) data) =
  totalTasks data.
Proof.
  induction 1 as [| item data Hitem _ IH]; cbn [filter]; [reflexivity |].
  destruct (Z.ltb_spec 0 (slice_value item));
    rewrite ?totalTasks_cons, IH; lia.
Qed.

(** X17: the chart keeps only statuses that occur (every slice has a
    value of at least 1); the total it reports is the number of tasks whose
    status, read as [pending] when missing or empty, is one of [pending],
    [in_progress], [completed], [cancelled], so tasks with any other status
    are left out of it; the completed figure is the number of completed
    tasks; and the completion rate is a finite number between 0 and 100. *)
Theorem processTaskData_totals (ts : list Task) :
  let chartData := processTaskData (Some ts) in
  Forall (fun item => 1 <= slice_value item) chartData /\
  totalTasks chartData =
    tasksWithStatus "pending" ts + tasksWithStatus "in_progress" ts +
    tasksWithStatus "completed" ts + tasksWithStatus "cancelled" ts /\
  completedTasks chartData = tasksWithStatus "completed" ts /\
  within 0 100 (completionRate chartData).
Proof.
  cbv zeta.
  pose proof (tasksWithStatus_nonneg "pending" ts) as Ha.
  pose proof (tasksWithStatus_nonneg "in_progress" ts) as Hb.
  pose proof (tasksWithStatus_nonneg "completed" ts) as Hc.
  pose proof (tasksWithStatus_nonneg "cancelled" ts) as Hd.
  assert (Hzero : within 0 100 (Num 0))
    by (exists 0%Q; split; [reflexivity | split; lra]).
  destruct ts as [| t ts].
  - cbn. repeat split; try constructor. exact Hzero.
  - unfold processTaskData. cbv zeta. rewrite !counting_loop.
    cbn [getCount String.eqb Ascii.eqb Bool.eqb]. rewrite !Z.add_0_l.
    set (a := tasksWithStatus "pending" (t :: ts)) in *.
    set (b := tasksWithStatus "in_progress" (t :: ts)) in *.
    set (c := tasksWithStatus "completed" (t :: ts)) in *.
    set (d := tasksWithStatus "cancelled" (t :: ts)) in *.
    clearbody a b c d.
    match goal with
    | |- context [filter ?f ?l] =>
        set (data := l); set (chart := filter f data)
    end.
    assert (Hpos : Forall (fun item => 1 <= slice_value item) chart).
    { apply Forall_forall. intros item Hin. apply filter_In in Hin.
      destruct Hin as [_ Hin]. apply Z.ltb_lt in Hin. lia. }
    assert (Htot : totalTasks chart = a + b + c + d).
    { unfold chart. rewrite totalTasks_filter.
      - unfold data. rewrite !totalTasks_cons. cbn. lia.
      - unfold data. repeat constructor; cbn [slice_value]; lia. }
    assert (Hcomp : completedTasks chart = c).
    { unfold completedTasks, chart, data. cbn [filter slice_value].
      destruct (Z.ltb_spec 0 a), (Z.ltb_spec 0 b), (Z.ltb_spec 0 c),
        (Z.ltb_spec 0 d);
        cbn [find slice_name slice_value String.eqb Ascii.eqb Bool.eqb];
        rewrite ?orZeroInt_id; lia. }
    repeat split; try assumption.
    unfold completionRate. rewrite Htot, Hcomp.
    destruct (Z.eqb_spec (a + b + c + d) 0) as [E0 | E0]; [exact Hzero |].
    apply share_within_0_100.
    + rewrite Zle_Qle in Hc. exact Hc.
    + assert (Hle : c <= a + b + c + d) by lia.
      rewrite Zle_Qle in Hle. exact Hle.
    + assert (Hp : 0 < a + b + c + d) by lia.
      rewrite Zlt_Qlt in Hp. exact Hp.
Qed.

End TaskChartFacts.

(** ** The customer activity chart *)

Module CustomerActivityFacts.

Import CustomerActivity.

(** *** The counting map *)

Lemma mapGet_mapSet (key k v : Z) (m : list (Z * Z)) :
  mapGet k (mapSet key v m) = if key =? k then v else mapGet k m.
Proof.
  induction m as [| [k0 w] m IH]; cbn [mapSet mapGet].
  - destruct (key =? k); reflexivity.
  - destruct (Z.eqb_spec k0 key) as [-> | Hne]; cbn [mapGet].
    + destruct (key =? k); reflexivity.
    + rewrite IH.
      destruct (Z.eqb_spec k0 k) as [-> | Hk];
        destruct (Z.eqb_spec key k) as [-> | Hk']; congruence.
Qed.

Lemma meetingsOf_cons (cid : Z) (m : MeetingRow) (ms : list MeetingRow) :
  meetingsOf cid (m :: ms) =
  (match customerId m with
   | Some c => if c =? cid then 1 else 0
   | None => 0
   end) + meetingsOf cid ms.
Proof.
  unfold meetingsOf; cbn [filter].
  destruct (customerId m) as [c |]; [destruct (c =? cid) |];
    cbn [List.length]; lia.
Qed.

Lemma countMeetings_from (cid : Z) (ms : list MeetingRow) :
  forall acc,
    mapGet cid
      (fold_left
         (fun customerMeetings meeting =>
            match customerId meeting with
            | None => customerMeetings
            | Some c =>
                if c =? 0 then customerMeetings
                else mapSet c (mapGet c customerMeetings + 1) customerMeetings
            end) ms acc) =
    mapGet cid acc + (if cid =? 0 then 0 else meetingsOf cid ms).
Proof.
  induction ms as [| m ms IH]; intros acc; cbn [fold_left].
  - unfold meetingsOf; cbn. destruct (cid =? 0); lia.
  - rewrite IH, meetingsOf_cons.
    destruct (customerId m) as [c |]; [| destruct (cid =? 0); lia].
    destruct (Z.eqb_spec c 0) as [-> | Hc].
    + destruct (Z.eqb_spec cid 0) as [-> | Hcid]; [lia |].
      destruct (Z.eqb_spec 0 cid); [congruence | lia].
    + rewrite mapGet_mapSet.
      destruct (Z.eqb_spec c cid) as [-> | Hne];
        destruct (Z.eqb_spec cid 0); try congruence; lia.
Qed.

(** The map built by the loop gives every customer the number of its
    meetings; the identifier 0 is never counted. *)
Lemma countMeetings_spec (cid : Z) (ms : list MeetingRow) :
  mapGet cid (countMeetings ms) = if cid =? 0 then 0 else meetingsOf cid ms.
Proof. unfold countMeetings. now rewrite countMeetings_from. Qed.

(** *** Sorting and truncating *)

Lemma In_firstn {A} (y : A) (l : list A) :
  forall k, In y (firstn k l) -> In y l.
Proof.
  induction l as [| z l IH]; intros [| k]; cbn [firstn In]; try tauto.
  intros [-> | Hy]; [now left | right; now apply (IH k)].
Qed.

Section Sorting.

Context {A : Type} (key : A -> Z).

Lemma insertDesc_In (x y : A) (l : list A) :
  In y (insertDesc key x l) <-> y = x \/ In y l.
Proof.
  induction l as [| z l IH]; cbn [insertDesc In].
  - intuition.
  - destruct (key x <? key z); cbn [In]; rewrite ?IH; intuition.
Qed.

Lemma sortDesc_In (y : A) (l : list A) : In y (sortDesc key l) <-> In y l.
Proof.
  unfold sortDesc. induction l as [| x l IH]; cbn [fold_right In].
  - reflexivity.
  - rewrite insertDesc_In, IH. intuition.
Qed.

Lemma insertDesc_length (x : A) (l : list A) :
  List.length (insertDesc key x l) = S (List.length l).
Proof.
  induction l as [| z l IH]; cbn [insertDesc List.length]; [reflexivity |].
  destruct (key x <? key z); cbn [List.length]; now rewrite ?IH.
Qed.

Lemma sortDesc_length (l : list A) :
  List.length (sortDesc key l) = List.length l.
Proof.
  unfold sortDesc. induction l as [| x l IH]; cbn [fold_right List.length].
  - reflexivity.
  - now rewrite insertDesc_length, IH.
Qed.

Lemma insertDesc_sorted (x : A) (l : list A) :
  StronglySorted (fun a b => key b <= key a) l ->
  StronglySorted (fun a b => key b <= key a) (insertDesc key x l).
Proof.
  induction 1 as [| z l Hs IH Hall]; cbn [insertDesc].
  - repeat constructor.
  - destruct (Z.ltb_spec (key x) (key z)) as [Hlt | Hge].
    + constructor; [exact IH |].
      apply Forall_forall. intros y Hy. apply insertDesc_In in Hy.
      destruct Hy as [-> | Hy]; [lia |].
      rewrite Forall_forall in Hall. now apply Hall.
    + constructor; [now constructor |].
      constructor; [exact Hge |].
      revert Hall. apply Forall_impl. intros y Hy. lia.
Qed.

Lemma sortDesc_sorted (l : list A) :
  StronglySorted (fun a b => key b <= key a) (sortDesc key l).
Proof.
  unfold sortDesc. induction l as [| x l IH]; cbn [fold_right].
  - constructor.
  - now apply insertDesc_sorted.
Qed.

Lemma sorted_app_le (l1 l2 : list A) :
  StronglySorted (fun a b => key b <= key a) (l1 ++ l2) ->
  forall a b, In a l1 -> In b l2 -> key b <= key a.
Proof.
  induction l1 as [| x l1 IH]; cbn [app]; intros Hs a b Ha Hb.
  - destruct Ha.
  - inversion Hs as [| ? ? Hs' Hall]; subst.
    destruct Ha as [-> | Ha].
    + rewrite Forall_forall in Hall. apply Hall. apply in_or_app. now right.
    + now apply (IH Hs' a b).
Qed.

Lemma sorted_firstn (k : nat) (l : list A) :
  StronglySorted (fun a b => key b <= key a) l ->
  StronglySorted (fun a b => key b <= key a) (firstn k l).
Proof.
  intros Hs. revert k.
  induction Hs as [| x l Hs IH Hall]; intros [| k]; cbn [firstn];
    try constructor.
  - apply IH.
  - apply Forall_forall. intros y Hy. rewrite Forall_forall in Hall.
    apply Hall. now apply (In_firstn y l k).
Qed.

(** The first [k] of a descending sort: every element is either kept or
    ranks no higher than every element kept. *)
Lemma top_of_sorted (k : nat) (l : list A) (x : A) :
  In x l ->
  In x (firstn k (sortDesc key l)) \/
  forall y, In y (firstn k (sortDesc key l)) -> key x <= key y.
Proof.
  intros Hx. apply (sortDesc_In x l) in Hx.
  rewrite <- (firstn_skipn k (sortDesc key l)) in Hx at 1.
  apply in_app_or in Hx. destruct Hx as [Hx | Hx]; [now left | right].
  intros y Hy.
  pose proof (sortDesc_sorted l) as Hs.
  rewrite <- (firstn_skipn k (sortDesc key l)) in Hs.
  exact (sorted_app_le _ _ Hs y x Hy Hx).
Qed.

End Sorting.

(** X18: the meetings chart shows at most ten customers, in descending
    order of their number of meetings; each bar carries the name of a
    customer and the number of meetings booked for that customer (none for
    the identifier 0); and every customer is either shown or has no more
    meetings than each customer shown. *)
Theorem processMeetingData_top_ten
    (cs : list CustomerRow) (ms : list MeetingRow) :
  let bars := processMeetingData (Some cs) (Some ms) in
  let booked c := if id c =? 0 then 0 else meetingsOf (id c) ms in
  List.length bars = Nat.min 10 (List.length cs) /\
  StronglySorted (fun a b => meetings b <= meetings a) bars /\
  (forall b, In b bars ->
     exists c, In c cs /\ bar_name b = name c /\ meetings b = booked c) /\
  (forall c, In c cs ->
     In {| bar_name := name c; meetings := booked c |} bars \/
     forall b, In b bars -> booked c <= meetings b).
Proof.
  cbv zeta. unfold processMeetingData.
  set (bar := fun customer =>
                {| bar_name := name customer;
                   meetings := mapGet (id customer) (countMeetings ms) |}).
  assert (Hbar : forall c,
            bar c = {| bar_name := name c;
                       meetings := if id c =? 0 then 0
                                   else meetingsOf (id c) ms |}).
  { intros c. unfold bar. now rewrite countMeetings_spec. }
  repeat split.
  - rewrite length_firstn, sortDesc_length, length_map. reflexivity.
  - apply sorted_firstn, sortDesc_sorted.
  - intros b Hb. apply In_firstn in Hb. apply sortDesc_In in Hb.
    apply in_map_iff in Hb. destruct Hb as (c & <- & Hc).
    exists c. rewrite Hbar. repeat split; [exact Hc | reflexivity ..].
  - intros c Hc.
    destruct (top_of_sorted meetings 10 (map bar cs) (bar c)
                (in_map bar cs c Hc)) as [Hin | Hle].
    + left. rewrite <- Hbar. exact Hin.
    + right. intros b Hb. specialize (Hle b Hb).
      rewrite Hbar in Hle. exact Hle.
Qed.

(** X19: the simulated interactions chart shows at most ten customers in
    descending order, and for customers with a non-negative identifier
    every figure lies between 3 and 17. *)
Theorem processInteractionData_range (cs : list CustomerRow) :
  Forall (fun c => 0 <= id c) cs ->
  let bars := processInteractionData (Some cs) in
  List.length bars = Nat.min 10 (List.length cs) /\
  StronglySorted (fun a b => interactions b <= interactions a) bars /\
  Forall (fun b => 3 <= interactions b <= 17) bars.
Proof.
  intros Hid. cbv zeta. unfold processInteractionData. repeat split.
  - rewrite length_firstn, sortDesc_length, length_map. reflexivity.
  - apply sorted_firstn, sortDesc_sorted.
  - apply Forall_forall. intros b Hb.
    apply In_firstn in Hb. apply sortDesc_In in Hb.
    apply in_map_iff in Hb. destruct Hb as (c & <- & Hc).
    rewrite Forall_forall in Hid. specialize (Hid c Hc).
    cbn [interactions].
    pose proof (Z.rem_bound_pos (id c * 7) 15 ltac:(lia) ltac:(lia)). lia.
Qed.

Lemma processInteractionData_range_witness :
  let cs := [{| id := 1; name := "Acme" |}; {| id := 4; name := "Globex" |}] in
  Forall (fun c => 0 <= id c) cs /\
  (let bars := processInteractionData (Some cs) in
   List.length bars = Nat.min 10 (List.length cs) /\
   StronglySorted (fun a b => interactions b <= interactions a) bars /\
   Forall (fun b => 3 <= interactions b <= 17) bars).
Proof.
  cbv zeta.
  assert (H : Forall (fun c => 0 <= id c)
                [{| id := 1; name := "Acme" |};
                 {| id := 4; name := "Globex" |}])
    by (repeat constructor; cbn; lia).
  split; [exact H |].
  exact (processInteractionData_range _ H).
Defined.

End CustomerActivityFacts.

(** ** Grouping by stage, row by row *)

Module StageGroupFacts.

Import JSNumber JSNumberFacts Schema Storage Scenario StorageFacts
  StageVocabulary.

Lemma addToGroups_groupFor (s : string) (d : Deal) (gs : list StageGroup) :
  groupFor s (addToGroups d gs) =
  if String.eqb (deal_stage d) s then joined (groupFor s gs) [d]
  else groupFor s gs.
Proof.
  unfold groupFor, joined; cbn [fold_left].
  induction gs as [| g gs IH]; cbn [addToGroups find].
  - cbn [group_stage]. destruct (String.eqb (deal_stage d) s); reflexivity.
  - destruct (String.eqb_spec (group_stage g) (deal_stage d)) as [E | E];
      cbn [find group_stage].
    + rewrite <- E. destruct (String.eqb (group_stage g) s); reflexivity.
    + rewrite IH.
      destruct (String.eqb_spec (group_stage g) s) as [Es | Es];
        destruct (String.eqb_spec (deal_stage d) s) as [Ed | Ed];
        try reflexivity; congruence.
Qed.

Lemma joined_app (og : option StageGroup) (l1 l2 : list Deal) :
  joined og (l1 ++ l2) = joined (joined og l1) l2.
Proof. unfold joined. apply fold_left_app. Qed.

Lemma groupFor_fold (s : string) (ds : list Deal) :
  forall gs,
    groupFor s (fold_left (fun acc d => addToGroups d acc) ds gs) =
    joined (groupFor s gs) (dealsAt s ds).
Proof.
  induction ds as [| d ds IH]; intros gs; cbn [fold_left].
  - reflexivity.
  - rewrite IH, addToGroups_groupFor. unfold dealsAt; cbn [filter].
    destruct (String.eqb (deal_stage d) s); reflexivity.
Qed.

Lemma joined_some (g : StageGroup) (ds : list Deal) :
  joined (Some g) ds =
  Some {| group_stage := group_stage g;
          group_count := group_count g + Z.of_nat (List.length ds);
          group_sum := fold_left sqlAdd (map deal_value ds) (group_sum g) |}.
Proof.
  revert g. unfold joined.
  induction ds as [| d ds IH]; intros g; cbn [fold_left map List.length].
  - destruct g; cbn. do 2 f_equal. lia.
  - rewrite IH. cbn [group_stage group_count group_sum]. do 2 f_equal. lia.
Qed.

Lemma joined_none (d : Deal) (ds : list Deal) :
  joined None (d :: ds) =
  Some {| group_stage := deal_stage d;
          group_count := Z.of_nat (List.length (d :: ds));
          group_sum := sqlSum (map deal_value (d :: ds)) |}.
Proof.
  change (joined None (d :: ds)) with
    (joined (Some {| group_stage := deal_stage d; group_count := 1;
                     group_sum := deal_value d |}) ds).
  rewrite joined_some. cbn [group_stage group_count group_sum].
  unfold sqlSum; cbn [map fold_left List.length].
  replace (sqlAdd None (deal_value d)) with (deal_value d)
    by (now destruct (deal_value d)).
  do 2 f_equal. lia.
Qed.

Lemma groupFor_unique (g : StageGroup) (gs : list StageGroup) :
  NoDup (map group_stage gs) -> In g gs ->
  groupFor (group_stage g) gs = Some g.
Proof.
  unfold groupFor.
  induction gs as [| h gs IH]; cbn [map In find]; intros Hnd Hin; [tauto |].
  inversion Hnd as [| ? ? Hnotin Hnd']; subst.
  destruct Hin as [-> | Hin].
  - now rewrite String.eqb_refl.
  - destruct (String.eqb_spec (group_stage h) (group_stage g)) as [E | E].
    + exfalso. apply Hnotin. rewrite E. now apply in_map.
    + now apply IH.
Qed.

Lemma dealsAt_stage (s : string) (ds : list Deal) (d : Deal) :
  In d (dealsAt s ds) -> deal_stage d = s.
Proof.
  unfold dealsAt. intros H. apply filter_In in H. destruct H as [_ H].
  now apply String.eqb_eq.
Qed.

(** X20: [getDealsByStage] is the grouping of the deals by stage: the
    stages of its rows are pairwise distinct, every stage that some deal
    has gets a row, and the row of a stage counts exactly the deals of that
    stage (at least one) and totals their values, a missing value being
    skipped. *)
Theorem getDealsByStage_groups (db : Store) :
  let rows := getDealsByStage db in
  NoDup (map stage rows) /\
  (forall d, In d (deals db) -> In (deal_stage d) (map stage rows)) /\
  (forall r, In r rows ->
     let ds := dealsAt (stage r) (deals db) in
     ds <> [] /\
     count r = Z.of_nat (List.length ds) /\
     totalValue r = orZero (Num (coalesce0 (sqlSum (map deal_value ds))))).
Proof.
  cbv zeta. unfold getDealsByStage.
  pose proof (groupByStage_NoDup (deals db)) as Hnd.
  assert (Hfor : forall s,
            groupFor s (groupByStage (deals db)) =
            joined None (dealsAt s (deals db))).
  { intros s. unfold groupByStage. now rewrite groupFor_fold. }
  repeat split.
  - rewrite map_map. cbn [stage]. exact Hnd.
  - intros d Hd. rewrite map_map. cbn [stage].
    specialize (Hfor (deal_stage d)).
    assert (Hin : In d (dealsAt (deal_stage d) (deals db))).
    { unfold dealsAt. apply filter_In. split; [exact Hd |].
      apply String.eqb_refl. }
    destruct (dealsAt (deal_stage d) (deals db)) as [| d0 l] eqn:E;
      [destruct Hin |].
    rewrite joined_none in Hfor.
    unfold groupFor in Hfor. apply find_some in Hfor.
    destruct Hfor as [Hg Hs]. cbn [group_stage] in Hs.
    apply String.eqb_eq in Hs.
    apply in_map_iff. eexists. split; [| exact Hg]. cbn [group_stage].
    apply (dealsAt_stage (deal_stage d) (deals db) d0).
    rewrite E. now left.
  - apply in_map_iff in H. destruct H as (g & <- & Hg). cbn [stage].
    pose proof (groupFor_unique g _ Hnd Hg) as Hu. rewrite Hfor in Hu.
    intros E. rewrite E in Hu. discriminate Hu.
  - apply in_map_iff in H. destruct H as (g & <- & Hg). cbn [stage count].
    pose proof (groupFor_unique g _ Hnd Hg) as Hu. rewrite Hfor in Hu.
    destruct (dealsAt (group_stage g) (deals db)) as [| d0 l];
      [discriminate Hu |].
    rewrite joined_none in Hu. injection Hu as <-.
    cbn [group_count]. apply orZeroInt_id.
  - apply in_map_iff in H. destruct H as (g & <- & Hg).
    cbn [stage totalValue].
    pose proof (groupFor_unique g _ Hnd Hg) as Hu. rewrite Hfor in Hu.
    destruct (dealsAt (group_stage g) (deals db)) as [| d0 l];
      [discriminate Hu |].
    rewrite joined_none in Hu. injection Hu as <-. reflexivity.
Qed.

End StageGroupFacts.

(** ** Coverage of the weekly report *)

Module WeeklyCoverageFacts.

Import JSDate JSDateFacts Schema SalesByPeriod Scenario PeriodVocabulary
  PeriodFacts.

Lemma containing_at_least_one (ps : list PeriodData) (t : Z) (p : PeriodData) :
  In p ps -> inPeriod t p = true -> (1 <= containing ps t)%nat.
Proof.
  intros Hin Ht. unfold containing.
  assert (H : In p (filter (inPeriod t) ps)) by (apply filter_In; now split).
  destruct (filter (inPeriod t) ps); [destruct H | cbn; lia].
Qed.

Lemma In_weeks (i : Z) : In i [7; 6; 5; 4; 3; 2; 1; 0] <-> 0 <= i <= 7.
Proof.
  cbn [In]. split.
  - intros H. repeat (destruct H as [<- | H]; [lia |]). destruct H.
  - intros H.
    assert (E : i = 7 \/ i = 6 \/ i = 5 \/ i = 4 \/ i = 3 \/ i = 2 \/
                i = 1 \/ i = 0) by lia.
    intuition.
Qed.

(** In the model of local time, the weekly periods cover the 56 days
    that end at [now]. *)
Lemma weekly_window_rolling (now t : Z) :
  (1 <= containing (generatePeriods "weekly" now) t)%nat <->
  now - 56 * msPerDay <= t <= now.
Proof.
  rewrite generatePeriods_weekly.
  rewrite (map_ext _ _ (weeklyPeriod_rolling now)). split.
  - unfold containing. intros H.
    destruct (filter (inPeriod t) (map (rollingWeek now) [7; 6; 5; 4; 3; 2; 1; 0]))
      as [| p l] eqn:E; [cbn in H; lia |].
    assert (Hp : In p (p :: l)) by now left.
    rewrite <- E in Hp. apply filter_In in Hp. destruct Hp as [Hin Hper].
    apply in_map_iff in Hin. destruct Hin as (i & <- & Hi).
    apply In_weeks in Hi.
    unfold inPeriod, rollingWeek in Hper; cbn [startDate endDate] in Hper.
    apply andb_true_iff in Hper. destruct Hper as [Hlo Hhi].
    apply Z.leb_le in Hlo, Hhi. unfold msPerDay in *. lia.
  - intros [Hlo Hhi].
    set (i := Z.min 7 ((now - t) / (7 * msPerDay))).
    assert (Hi : 0 <= i <= 7 /\
                 now - (7 * i + 7) * msPerDay <= t <= now - 7 * i * msPerDay).
    { subst i. unfold msPerDay in *.
      destruct (Z.min_spec 7 ((now - t) / (7 * 86400000))) as [[Hc ->] | [Hc ->]];
        Z.div_mod_to_equations; lia. }
    destruct Hi as [Hi Hb].
    apply (containing_at_least_one _ t (rollingWeek now i)).
    + apply in_map. now apply In_weeks.
    + unfold inPeriod, rollingWeek; cbn [startDate endDate].
      apply andb_true_iff. split; apply Z.leb_le; lia.
Qed.

(** X21: the weekly report leaves no gap: an instant lies in at least
    one weekly period exactly when it is between the opening of Week 1 and
    the closing of Week 8, both included. *)
Theorem weekly_window_covered (now t : Z) :
  (1 <= containing (generatePeriods "weekly" now) t)%nat <->
  startDate (weeklyPeriod now 7) <= t <= endDate (weeklyPeriod now 0).
Proof.
  rewrite weekly_window_rolling, !weeklyPeriod_rolling.
  unfold rollingWeek; cbn [startDate endDate]. unfold msPerDay. lia.
Qed.

End WeeklyCoverageFacts.

(** ** Totals over the deals *)

Module DashboardTotalFacts.

Import JSNumber JSNumberFacts Schema Clock Storage Scenario StorageFacts
  SalesByPeriod PeriodVocabulary TotalsVocabulary.

Local Open Scope Q_scope.

Lemma sqlSum_from (vs : list (option Q)) :
  forall acc,
    coalesce0 (fold_left sqlAdd vs acc) ==
    coalesce0 acc +
    fold_right (fun v s => match v with Some q => q | None => 0 end + s) 0 vs.
Proof.
  induction vs as [| v vs IH]; intros acc; cbn [fold_left fold_right].
  - lra.
  - rewrite IH. destruct acc as [a |], v as [b |]; cbn [sqlAdd coalesce0]; lra.
Qed.

Lemma sqlSum_sumValues (ds : list Deal) :
  coalesce0 (sqlSum (map deal_value ds)) == sumValues ds.
Proof.
  unfold sqlSum. rewrite sqlSum_from. cbn [coalesce0].
  unfold sumValues, dealValue.
  induction ds as [| d ds IH]; cbn [map fold_right]; [lra |].
  assert (E : fold_right
                (fun v s => match v with Some q => q | None => 0 end + s) 0
                (map deal_value ds) ==
              fold_right
                (fun d acc => match deal_value d with
                              | Some v => v | None => 0 end + acc) 0 ds)
    by lra.
  lra.
Qed.

Lemma toFixed_orZero (digits : Z) (q : Q) :
  toFixed digits (orZero (Num q)) = toFixed digits (Num q).
Proof.
  unfold orZero. destruct (Qeq_bool q 0) eqn:E; [| reflexivity].
  apply Qeq_bool_eq in E. apply toFixed_Qeq. now rewrite E.
Qed.

Lemma sumValues_whole (ds : list Deal) :
  wholeValued ds = true ->
  sumValues ds == inject_Z (Qfloor (sumValues ds)).
Proof.
  unfold wholeValued, sumValues.
  induction ds as [| d ds IH]; cbn [forallb fold_right]; intros H.
  - reflexivity.
  - apply andb_true_iff in H. destruct H as [Hd Hds].
    specialize (IH Hds).
    set (rest := fold_right (fun d acc => dealValue d + acc) 0 ds) in *.
    assert (Ed : dealValue d == inject_Z (Qfloor (dealValue d))).
    { unfold dealValue. destruct (deal_value d) as [v |].
      - now apply Qeq_bool_eq.
      - reflexivity. }
    assert (E : dealValue d + rest ==
                inject_Z (Qfloor (dealValue d) + Qfloor rest)).
    { rewrite inject_Z_plus, <- Ed, <- IH. reflexivity. }
    rewrite (Qfloor_comp _ _ E), Qfloor_Z. exact E.
Qed.

(** [toFixed] leaves a whole number as it is. *)
Lemma toFixed2_whole (k : Z) :
  exists q : Q, toFixed 2 (Num (inject_Z k)) = Num q /\ q == inject_Z k.
Proof.
  unfold toFixed. eexists. split; [reflexivity |].
  rewrite Qred_correct.
  change (inject_Z (10 ^ 2)) with 100.
  assert (Ef : Qfloor (Qabs (inject_Z k) * 100 + (1 # 2)) =
               (Z.abs k * 100)%Z).
  { unfold Qfloor, Qabs, Qmult, Qplus, inject_Z; cbn.
    Z.div_mod_to_equations. lia. }
  rewrite Ef. unfold isNegative, inject_Z at 1; cbn [Qnum].
  destruct (Z.ltb_spec k 0) as [Hk | Hk].
  - rewrite Z.abs_neq by lia. rewrite inject_Z_mult, inject_Z_opp.
    change (inject_Z 100) with 100. field.
  - rewrite Z.abs_eq by lia. rewrite inject_Z_mult.
    change (inject_Z 100) with 100. field.
Qed.



End DashboardTotalFacts.
